(** * OCPP 1.6 charge-point simulators: EVBoxG3Simulator and EVBoxMock

    A shallow embedding of the protocol/session engine of
    [evbox_g3_mock.py] (class [EVBoxG3Simulator], module [G3] below) and of
    [mock_EVBOX.py] (class [EVBoxMock], module [Mock] below), together
    with the properties of the specification that concern them.

    Conventions of the embedding.
    - Python [int] is [Z], without bound (the limit that an interpreter
      may put on the number of digits of a conversion between [int] and
      [str], [sys.set_int_max_str_digits], is not modelled); Python [str]
      is [string], read as a sequence of ASCII characters (the
      classification of characters beyond ASCII made by [str.strip],
      [str.lower], [str.isdigit] and [int] is not modelled).
    - A dict used as a map is a [gmap string string].
    - A coroutine is a function in the monad [M]: it reads and updates the
      fields of the charge point and appends to a trace of events, which
      are the OCPP calls sent to the CSMS, the tasks handed to
      [asyncio.create_task], the GUI updates, and the sleeps of the
      heartbeat schedulers.  A coroutine is run without interleaving; the
      replies of the CSMS that decide the control flow are parameters. *)

From Stdlib Require Import ZArith String Ascii List Lia Sorted.
From Stdlib Require Import Decimal DecimalString DecimalZ DecimalPos.
From stdpp Require Import base option gmap strings.
Import ListNotations.

Local Open Scope Z_scope.
Local Open Scope string_scope.

(** ** Python string operations *)

Module PyStr.

(** [str(z)] for an [int]. *)
Definition str_Z (z : Z) : string := NilZero.string_of_int (Z.to_int z).

(** White space removed by [str.strip()]: TAB, LF, VT, FF, CR, the
    separators FS, GS, RS, US, and the space. *)
Definition is_space (c : ascii) : bool :=
  let n := N_of_ascii c in
  (N.leb 9 n && N.leb n 13) || (N.leb 28 n && N.leb n 32).

Definition is_digit (c : ascii) : bool :=
  let n := N_of_ascii c in N.leb 48 n && N.leb n 57.

Definition digit_val (c : ascii) : Z := Z.of_N (N_of_ascii c) - 48.

Fixpoint lstrip (s : string) : string :=
  match s with
  | EmptyString => EmptyString
  | String c s' => if is_space c then lstrip s' else s
  end.

Fixpoint rstrip (s : string) : string :=
  match s with
  | EmptyString => EmptyString
  | String c s' =>
      match rstrip s' with
      | EmptyString => if is_space c then EmptyString else String c EmptyString
      | r => String c r
      end
  end.

(** [s.strip()] *)
Definition strip (s : string) : string := lstrip (rstrip s).

Definition lower_char (c : ascii) : ascii :=
  let n := N_of_ascii c in
  if N.leb 65 n && N.leb n 90 then ascii_of_N (n + 32) else c.

(** [s.lower()] *)
Fixpoint lower (s : string) : string :=
  match s with
  | EmptyString => EmptyString
  | String c s' => String (lower_char c) (lower s')
  end.

Fixpoint all_digits (s : string) : bool :=
  match s with
  | EmptyString => true
  | String c s' => is_digit c && all_digits s'
  end.

(** [s.isdigit()]: at least one character, and every character a digit. *)
Definition isdigit (s : string) : bool :=
  match s with
  | EmptyString => false
  | String _ _ => all_digits s
  end.

(** The digits of an integer literal after its first digit: digits, with
    single underscores allowed between two digits. *)
Fixpoint int_digits (acc : Z) (after_underscore : bool) (s : string) : option Z :=
  match s with
  | EmptyString => if after_underscore then None else Some acc
  | String c s' =>
      if is_digit c then int_digits (10 * acc + digit_val c) false s'
      else if Ascii.eqb c "_" && negb after_underscore then int_digits acc true s'
      else None
  end.

Definition int_unsigned (s : string) : option Z :=
  match s with
  | EmptyString => None
  | String c s' => if is_digit c then int_digits (digit_val c) false s' else None
  end.

(** White space that [int()] skips before and after a number: TAB, LF,
    VT, FF, CR and the space.  The separators FS, GS, RS and US, which
    [str.strip()] removes, are not among them. *)
Definition is_int_space (c : ascii) : bool :=
  let n := N_of_ascii c in
  (N.leb 9 n && N.leb n 13) || N.eqb n 32.

Fixpoint int_lstrip (s : string) : string :=
  match s with
  | EmptyString => EmptyString
  | String c s' => if is_int_space c then int_lstrip s' else s
  end.

Fixpoint int_rstrip (s : string) : string :=
  match s with
  | EmptyString => EmptyString
  | String c s' =>
      match int_rstrip s' with
      | EmptyString => if is_int_space c then EmptyString else String c EmptyString
      | r => String c r
      end
  end.

(** What [int()] reads once the white space around it is skipped. *)
Definition int_strip (s : string) : string := int_lstrip (int_rstrip s).

(** [int(s)] for a [str]; [None] stands for [ValueError].  After the
    white space, one sign at most, then the digits, with nothing between
    the sign and the first digit. *)
Definition py_int (s : string) : option Z :=
  match int_strip s with
  | String "+" r => int_unsigned r
  | String "-" r => option_map Z.opp (int_unsigned r)
  | t => int_unsigned t
  end.

(** [x in (a, b, ...)] for strings. *)
Definition str_in (x : string) (l : list string) : bool :=
  existsb (String.eqb x) l.

(** [s.split(sep)] for a separator of one character. *)
Fixpoint split_on (sep : ascii) (s : string) : list string :=
  match s with
  | EmptyString => [EmptyString]
  | String c s' =>
      if Ascii.eqb c sep then EmptyString :: split_on sep s'
      else match split_on sep s' with
           | [] => [String c EmptyString]
           | t :: ts => String c t :: ts
           end
  end.

(** [sep not in s] *)
Fixpoint lacks (sep : ascii) (s : string) : bool :=
  match s with
  | EmptyString => true
  | String c s' => negb (Ascii.eqb c sep) && lacks sep s'
  end.

(** [",".join(parts)] *)
Definition join (parts : list string) : string := String.concat "," parts.

End PyStr.

Import PyStr.


(** ** OCPP 1.6 vocabulary (the part of [ocpp.v16] the simulators use) *)

Module RegistrationStatus.
Inductive t := accepted | pending | rejected.
End RegistrationStatus.

Module AuthorizationStatus.
Inductive t := accepted | blocked | expired | invalid | concurrent_tx.

(** The [.value] of the enumeration, the string on the wire. *)
Definition value (s : t) : string :=
  match s with
  | accepted => "Accepted"
  | blocked => "Blocked"
  | expired => "Expired"
  | invalid => "Invalid"
  | concurrent_tx => "ConcurrentTx"
  end.
End AuthorizationStatus.

Module ChargePointStatus.
Inductive t :=
  available | preparing | charging | suspended_evse | suspended_ev
| finishing | reserved | unavailable | faulted.
End ChargePointStatus.

Module ConfigurationStatus.
Inductive t := accepted | rejected | reboot_required | not_supported.
End ConfigurationStatus.

Module RemoteStartStopStatus.
Inductive t := Accepted | Rejected.
End RemoteStartStopStatus.

(** The replies of the CSMS the simulators read. *)
Module call_result.

Record BootNotification := {
  status : RegistrationStatus.t;
  interval : Z
}.

(** The status inside [id_tag_info], and the transaction id, an [int]. *)
Record StartTransaction := {
  id_tag_info_status : AuthorizationStatus.t;
  transaction_id : Z
}.

End call_result.

(** Coroutines handed to [asyncio.create_task]. *)
Inductive task :=
| Task_listener                      (* super().start() *)
| Task_heartbeat                     (* _heartbeat_task / periodic_heartbeat *)
| Task_post_boot_notifications       (* _post_boot_notifications *)
| Task_start_session (id_tag : string)
| Task_stop_session (reason : string).

(** Labels shown by [gui.update_charging_status]. *)
Inductive gui_label := Carregando | Disponivel | RFID_nao_autorizado.

(** What a coroutine does that can be seen from outside. *)
Inductive event :=
| Call_BootNotification
| Call_Heartbeat
| Call_Authorize (id_tag : string)
| Call_StatusNotification (connector_id : Z) (status : ChargePointStatus.t)
                          (info : option string)
| Call_DataTransfer_evbStatusNotification
    (connector_id : Z) (status led_color : string)
    (plugged energy_register_wh tx_id : Z)
| Call_StartTransaction (connector_id : Z) (id_tag : string) (meter_start : Z)
| Call_MeterValues (transaction_id : option Z) (power_w : option Z)
                   (energy_wh : Z)
| Call_StopTransaction (transaction_id : option Z) (id_tag : string)
                       (meter_stop : Z) (reason : string)
| Create_task (t : task)
| Sleep (seconds : Z)
| Gui_update_charging_status (label : gui_label)
| Gui_update_energy_values (power_w energy_wh : Z)
| Gui_update_autostart_status (enabled : bool).

(** The energy-register samples sent in [MeterValues], in order. *)
Definition meter_samples (tr : list event) : list Z :=
  omap (fun e => match e with
                 | Call_MeterValues _ _ wh => Some wh
                 | _ => None
                 end) tr.

Definition is_StopTransaction (e : event) : bool :=
  match e with Call_StopTransaction _ _ _ _ => true | _ => false end.

(** The first sleep of a trace. *)
Fixpoint first_sleep (tr : list event) : option Z :=
  match tr with
  | [] => None
  | Sleep n :: _ => Some n
  | _ :: tr' => first_sleep tr'
  end.

(** Whether a trace announces the status Charging to the CSMS. *)
Definition enters_charging (tr : list event) : bool :=
  existsb (fun e => match e with
                    | Call_StatusNotification _ ChargePointStatus.charging _ => true
                    | _ => false
                    end) tr.

(** ** Coroutines: state passing with a trace *)

Module Eff.

Definition M (S A : Type) : Type := S -> A * S * list event.

Definition ret {S A} (a : A) : M S A := fun st => (a, st, []).

Definition bind {S A B} (m : M S A) (k : A -> M S B) : M S B :=
  fun st =>
    let '(a, st1, tr1) := m st in
    let '(b, st2, tr2) := k a st1 in
    (b, st2, (tr1 ++ tr2)%list).

Definition get {S} : M S S := fun st => (st, st, []).
Definition modify {S} (f : S -> S) : M S unit := fun st => (tt, f st, []).
Definition emit {S} (e : event) : M S unit := fun st => (tt, st, [e]).

(** [when c m]: [if c: m] *)
Definition when {S} (c : bool) (m : M S unit) : M S unit :=
  if c then m else ret tt.

Definition result {S A} (x : A * S * list event) : A := x.1.1.
Definition final {S A} (x : A * S * list event) : S := x.1.2.
Definition trace {S A} (x : A * S * list event) : list event := x.2.

End Eff.

Import Eff.

Declare Scope eff_scope.
Delimit Scope eff_scope with eff.
Notation "x <- m ;; k" := (bind m (fun x => k))
  (at level 100, m at next level, right associativity) : eff_scope.
Notation "m ;; k" := (bind m (fun _ => k))
  (at level 100, right associativity) : eff_scope.

(** Python's [a or b] on integers. *)
Definition or_Z (a b : Z) : Z := if Z.eqb a 0 then b else a.

(** [a or b] for [a] a [str] or [None], and [b] a [str]: [b] when [a] is
    [None] or the empty string. *)
Definition or_str (a : option string) (b : string) : string :=
  match a with
  | Some (String c s) => String c s
  | _ => b
  end.

(** ** The compact vendor status string *)

Module Compact.

(** The list [parts] of [build_evb_status_compact].  [utc_iso_z] is the
    time stamp returned by the clock helper of that name. *)
Definition parts (utc_iso_z : string) (connector_id : Z)
    (status error_code error_desc led_color : string)
    (plugged energy_register_wh tx_id : Z) : list string :=
  let group1 := "{32,4784,41}" in
  let group2 := "{" ++ str_Z energy_register_wh ++ ",0}" in
  let group3 := "{C,11912,5908,11944}" in
  let group4 := "{245,0,0,0,0,0,1000,0,0}" in
  let some_num1 := "16" in
  let some_num2 := "6680" in
  let some_num3 := "445" in
  let fw_interval_s := 5000 in
  let vehicle_present :=
    if str_in status ["Charging"; "SuspendedEVSE"] then 1 else 0 in
  let plugged_flag := plugged in
  [ str_Z connector_id;
    status;
    error_code;
    error_desc;
    str_Z vehicle_present;
    led_color;
    str_Z plugged_flag;
    group1;
    group2;
    group3;
    some_num1;
    some_num2;
    some_num3;
    utc_iso_z;
    str_Z (or_Z tx_id 0);
    "96";
    group4;
    "49"; "0"; "0"; "0"; "0"; "0"; "250"; str_Z fw_interval_s ].

Definition build_evb_status_compact (utc_iso_z : string) (connector_id : Z)
    (status error_code error_desc led_color : string)
    (plugged energy_register_wh tx_id : Z) : string :=
  join (parts utc_iso_z connector_id status error_code error_desc led_color
              plugged energy_register_wh tx_id).

(** The encoder as [send_evb_datatransfer] calls it: the error code and
    description are fixed. *)
Definition encode (utc_iso_z : string) (connector_id : Z) (status led_color : string)
    (plugged energy_register_wh tx_id : Z) : string :=
  build_evb_status_compact utc_iso_z connector_id status "NoError" "No error."
    led_color plugged energy_register_wh tx_id.

(** The tokens between the commas of the compact status string. *)
Definition tokens (utc_iso_z : string) (connector_id : Z)
    (status error_code error_desc led_color : string)
    (plugged energy_register_wh tx_id : Z) : list string :=
  [ str_Z connector_id; status; error_code; error_desc;
    str_Z (if str_in status ["Charging"; "SuspendedEVSE"] then 1 else 0);
    led_color; str_Z plugged;
    "{32"; "4784"; "41}";
    "{" ++ str_Z energy_register_wh; "0}";
    "{C"; "11912"; "5908"; "11944}";
    "16"; "6680"; "445";
    utc_iso_z; str_Z (or_Z tx_id 0); "96";
    "{245"; "0"; "0"; "0"; "0"; "0"; "1000"; "0"; "0}";
    "49"; "0"; "0"; "0"; "0"; "0"; "250"; "5000" ].

(** A decimal integer as a receiver reads it. *)
Definition dec_int (s : string) : option Z :=
  option_map Z.of_int (NilZero.int_of_string s).

Definition strip_open_brace (s : string) : option string :=
  match s with
  | String "{" r => Some r
  | _ => None
  end.

(** Modelled from the spec: the positional decoder of the compact status
    string, which belongs to the CSMS and is not part of the sources.  It
    splits the string at every comma and reads the connector id, the
    status, the LED colour, the plugged flag, the energy register (the
    token that opens the energy group) and the transaction id at their
    fixed positions. *)
Definition decode (s : string) : option (Z * string * string * Z * Z * Z) :=
  let f := split_on "," s in
  match nth_error f 0, nth_error f 1, nth_error f 5,
        nth_error f 6, nth_error f 10, nth_error f 20 with
  | Some f0, Some status, Some led_color, Some f6, Some f10, Some f20 =>
      match dec_int f0, dec_int f6,
            option_bind _ _ dec_int (strip_open_brace f10), dec_int f20 with
      | Some connector_id, Some plugged, Some register_wh, Some tx_id =>
          Some (connector_id, status, led_color, plugged, register_wh, tx_id)
      | _, _, _, _ => None
      end
  | _, _, _, _, _, _ => None
  end.

End Compact.


(** ** EVBoxG3Simulator ([evbox_g3_mock.py]) *)

Module G3.

(** The module-level [_as_bool], the one the handlers call. *)
Definition _as_bool (v : string) : bool :=
  str_in (lower (strip v)) ["1"; "true"; "yes"; "on"].

(** The fields of the charge point.  [_config] and [authorize_required]
    are created on first use by [_ensure_config]: [None] is an attribute
    that does not exist yet.  [gui_id_tag] is [self.gui.id_tag]. *)
Record state := mk_state {
  connector_id : Z;
  heartbeat_interval : Z;
  tx_id : option Z;
  energy_wh_counter : Z;
  charging : bool;
  connected : bool;
  _config : option (gmap string string);
  authorize_required : option bool;
  gui_id_tag : string
}.

Definition set_heartbeat_interval (v : Z) (st : state) : state :=
  mk_state (connector_id st) v (tx_id st) (energy_wh_counter st) (charging st)
           (connected st) (_config st) (authorize_required st) (gui_id_tag st).
Definition set_tx_id (v : option Z) (st : state) : state :=
  mk_state (connector_id st) (heartbeat_interval st) v (energy_wh_counter st)
           (charging st) (connected st) (_config st) (authorize_required st)
           (gui_id_tag st).
Definition set_energy_wh_counter (v : Z) (st : state) : state :=
  mk_state (connector_id st) (heartbeat_interval st) (tx_id st) v (charging st)
           (connected st) (_config st) (authorize_required st) (gui_id_tag st).
Definition set_charging (v : bool) (st : state) : state :=
  mk_state (connector_id st) (heartbeat_interval st) (tx_id st)
           (energy_wh_counter st) v (connected st) (_config st)
           (authorize_required st) (gui_id_tag st).
Definition set_connected (v : bool) (st : state) : state :=
  mk_state (connector_id st) (heartbeat_interval st) (tx_id st)
           (energy_wh_counter st) (charging st) v (_config st)
           (authorize_required st) (gui_id_tag st).
Definition set_config (v : option (gmap string string)) (st : state) : state :=
  mk_state (connector_id st) (heartbeat_interval st) (tx_id st)
           (energy_wh_counter st) (charging st) (connected st) v
           (authorize_required st) (gui_id_tag st).
Definition set_authorize_required (v : option bool) (st : state) : state :=
  mk_state (connector_id st) (heartbeat_interval st) (tx_id st)
           (energy_wh_counter st) (charging st) (connected st) (_config st) v
           (gui_id_tag st).

(** [__init__] *)
Definition init (id_tag : string) : state :=
  {| connector_id := 1;
     heartbeat_interval := 900;
     tx_id := None;
     energy_wh_counter := 11905680;
     charging := false;
     connected := true;
     _config := None;
     authorize_required := None;
     gui_id_tag := id_tag |}.

(** The replies that decide the control flow of a session: the reply to
    [StartTransaction] ([None]: the call raises) and whether the call of
    [StopTransaction] returns.  A failure of any other call is caught and
    logged by the sender and changes nothing. *)
Record csms := {
  start_transaction_reply : option call_result.StartTransaction;
  stop_transaction_ok : bool
}.

Local Open Scope eff_scope.

(** *** Connection and heartbeat *)

Definition start (boot : option call_result.BootNotification) : M state unit :=
  emit (Create_task Task_listener) ;;
  emit Call_BootNotification ;;
  match boot with
  | Some resp =>
      match call_result.status resp with
      | RegistrationStatus.accepted =>
          modify (set_heartbeat_interval (or_Z (call_result.interval resp) 900)) ;;
          emit (Create_task Task_heartbeat)
      | _ => modify (set_connected false)
      end
  | None => modify (set_connected false)
  end.

(** [_heartbeat_task]; [replies] tells for each cycle whether the call of
    [Heartbeat] returns, and the run is cut when the list is used up. *)
Fixpoint _heartbeat_task (replies : list bool) : M state unit :=
  st <- get ;;
  if connected st then
    match replies with
    | [] => ret tt
    | ok :: rest =>
        emit (Sleep (heartbeat_interval st)) ;;
        emit Call_Heartbeat ;;
        if ok then _heartbeat_task rest
        else modify (set_connected false)
    end
  else ret tt.

(** *** Sending messages *)

Definition send_status (status : ChargePointStatus.t) (info : option string)
  : M state unit :=
  st <- get ;;
  emit (Call_StatusNotification (connector_id st) status info).

(** [self.tx_id or 0] *)
Definition tx_id_or_0 (st : state) : Z :=
  match tx_id st with
  | Some n => or_Z n 0
  | None => 0
  end.

Definition send_evb_datatransfer (status_str led_color : string) (plugged : Z)
  : M state unit :=
  st <- get ;;
  emit (Call_DataTransfer_evbStatusNotification (connector_id st) status_str
          led_color plugged (energy_wh_counter st) (tx_id_or_0 st)).

(** [str(status_val).lower() == 'accepted'] *)
Definition status_is_accepted (status_val : string) : bool :=
  String.eqb (lower status_val) "accepted".

(** The value of [accepted] in [send_start_transaction]; [tx_id] is an
    [int], so [isinstance(tx_id, int)] holds. *)
Definition accepted (resp : call_result.StartTransaction) : bool :=
  let status_val := AuthorizationStatus.value (call_result.id_tag_info_status resp) in
  let tx_id := call_result.transaction_id resp in
  status_is_accepted status_val && Z.ltb 0 tx_id.

Definition send_start_transaction (cs : csms) (id_tag : string) : M state bool :=
  st <- get ;;
  emit (Call_StartTransaction (connector_id st) id_tag (energy_wh_counter st)) ;;
  match start_transaction_reply cs with
  | Some resp =>
      if negb (accepted resp) then
        modify (set_tx_id None) ;; ret false
      else
        modify (set_tx_id (Some (call_result.transaction_id resp))) ;; ret true
  | None => ret false
  end.

Definition send_meter_values (increment_wh : Z) : M state unit :=
  modify (fun st =>
    set_energy_wh_counter (energy_wh_counter st + Z.max 1 increment_wh) st) ;;
  st <- get ;;
  emit (Call_MeterValues (tx_id st) None (energy_wh_counter st)).

Definition send_stop_transaction (cs : csms) (reason : string) : M state unit :=
  st <- get ;;
  emit (Call_StopTransaction (tx_id st) (gui_id_tag st) (energy_wh_counter st)
          reason) ;;
  when (stop_transaction_ok cs) (modify (set_tx_id None)).

(** *** The session *)

(** [isinstance(self.tx_id, int) and self.tx_id > 0] *)
Definition tx_ok (st : state) : bool :=
  match tx_id st with
  | Some n => Z.ltb 0 n
  | None => false
  end.

(** The body of [for i in range(n)] in [start_session_flow]. *)
Fixpoint metering_loop (n : nat) : M state unit :=
  match n with
  | O => ret tt
  | S n' =>
      st <- get ;;
      if negb (charging st) || negb (connected st) then ret tt
      else
        let inc := 1280 in
        send_meter_values inc ;;
        let est_power_w := Z.quot (inc * 3600) 10 in
        st1 <- get ;;
        emit (Gui_update_energy_values est_power_w (energy_wh_counter st1)) ;;
        send_evb_datatransfer "Charging" "Blue" 1 ;;
        metering_loop n'
  end.

Definition start_session_flow (cs : csms) (id_tag : string) : M state unit :=
  st <- get ;;
  if charging st then ret tt
  else
    (* 1) Preparing + DataTransfer *)
    send_status ChargePointStatus.preparing None ;;
    send_evb_datatransfer "Preparing" "Off" 0 ;;
    (* 2) StartTransaction *)
    _ <- send_start_transaction cs id_tag ;;
    st1 <- get ;;
    if negb (tx_ok st1) then
      send_status ChargePointStatus.available None ;;
      send_evb_datatransfer "Available" "Green" 0 ;;
      modify (set_charging false) ;;
      emit (Gui_update_charging_status Disponivel)
    else
      (* 3) SuspendedEVSE, then Charging *)
      send_status ChargePointStatus.suspended_evse (Some "B;425") ;;
      send_evb_datatransfer "SuspendedEVSE" "Yellow" 1 ;;
      send_status ChargePointStatus.charging (Some "C;424") ;;
      send_evb_datatransfer "Charging" "Blue" 1 ;;
      modify (set_charging true) ;;
      emit (Gui_update_charging_status Carregando) ;;
      (* 4) MeterValues + DataTransfer *)
      metering_loop 3 ;;
      (* 5) the end of the session *)
      st2 <- get ;;
      when (charging st2)
        (send_stop_transaction cs "Local" ;;
         send_status ChargePointStatus.finishing None ;;
         send_evb_datatransfer "Finishing" "Green" 0 ;;
         send_status ChargePointStatus.available None ;;
         send_evb_datatransfer "Available" "Green" 0 ;;
         modify (set_charging false) ;;
         emit (Gui_update_charging_status Disponivel)).

Definition stop_session (cs : csms) (reason : string) : M state unit :=
  st <- get ;;
  if negb (charging st) then ret tt
  else
    modify (set_charging false) ;;
    send_stop_transaction cs reason ;;
    send_status ChargePointStatus.available None ;;
    send_evb_datatransfer "Available" "Green" 0 ;;
    emit (Gui_update_charging_status Disponivel).

(** *** Handlers of the calls of the CSMS *)

Definition on_remote_start_transaction (connector : Z) (id_tag : string)
  : M state RemoteStartStopStatus.t :=
  emit (Create_task (Task_start_session id_tag)) ;;
  ret RemoteStartStopStatus.Accepted.

(** [self.tx_id == transaction_id] *)
Definition tx_id_is (st : state) (transaction_id : Z) : bool :=
  match tx_id st with
  | Some n => Z.eqb n transaction_id
  | None => false
  end.

Definition on_remote_stop_transaction (cs : csms) (transaction_id : Z)
  : M state RemoteStartStopStatus.t :=
  st <- get ;;
  if tx_id_is st transaction_id then
    stop_session cs "Remote" ;;
    ret RemoteStartStopStatus.Accepted
  else ret RemoteStartStopStatus.Rejected.

(** *** The configuration store *)

Definition default_config : gmap string string :=
  <["evb_SkipAuthorize" := "0"]>
    (<["MeterValuesSampleInterval" := "60"]>
       (<["HeartbeatInterval" := "900"]>
          (<["AuthorizeRequired" := "true"]> ∅))).

(** [self._config], once [_ensure_config] has run. *)
Definition config (st : state) : gmap string string :=
  default default_config (_config st).

Definition _ensure_config (st : state) : state :=
  let st1 :=
    match _config st with
    | None => set_config (Some default_config) st
    | Some _ => st
    end in
  match authorize_required st1 with
  | None =>
      set_authorize_required
        (Some (String.eqb (lower (default "" (config st1 !! "AuthorizeRequired")))
                          "true")) st1
  | Some _ => st1
  end.

(** [self._config[key] = value] *)
Definition store (key value : string) (st : state) : state :=
  set_config (Some (<[key := value]> (config st))) st.

(** The store has the keys of [default_config] and no other: it is
    created with them, and a write to a key it does not have is refused. *)
Definition config_ok (st : state) : Prop :=
  match _config st with
  | None => True
  | Some m => dom m = dom default_config
  end.

Definition on_change_configuration (key value : string)
  : M state ConfigurationStatus.t :=
  modify _ensure_config ;;
  st <- get ;;
  match config st !! key with
  | None => ret ConfigurationStatus.not_supported
  | Some _ =>
      if String.eqb key "AuthorizeRequired" then
        let b := _as_bool value in
        modify (store "AuthorizeRequired" (if b then "true" else "false")) ;;
        modify (set_authorize_required (Some b)) ;;
        modify (store "evb_SkipAuthorize" (if b then "0" else "1")) ;;
        ret ConfigurationStatus.accepted
      else if String.eqb key "evb_SkipAuthorize" then
        let b := _as_bool value in
        modify (store "evb_SkipAuthorize" (if b then "1" else "0")) ;;
        modify (store "AuthorizeRequired" (if b then "false" else "true")) ;;
        modify (set_authorize_required (Some (negb b))) ;;
        ret ConfigurationStatus.accepted
      else if str_in key ["HeartbeatInterval"; "MeterValuesSampleInterval"] then
        if negb (isdigit value) then ret ConfigurationStatus.rejected
        else
          modify (store key value) ;;
          ret ConfigurationStatus.accepted
      else
        modify (store key value) ;;
        ret ConfigurationStatus.accepted
  end.

(** An entry of [configuration_key] in the reply to [GetConfiguration]. *)
Record KeyValue := { key : string; value : string; readonly : bool }.

(** [on_get_configuration]: the entries of the keys that are in the
    store, in the order of the request, and the keys that are not
    ([unknown_key or None]).  Without a request every key of the store is
    listed; the map keeps no insertion order, so that listing comes in the
    order of the map and not in the order of the dict. *)
Definition on_get_configuration (requested_keys : option (list string))
  : M state (list KeyValue * option (list string)) :=
  modify _ensure_config ;;
  st <- get ;;
  let requested :=
    match requested_keys with
    | Some ks => ks
    | None => (map_to_list (config st)).*1
    end in
  let configuration_key :=
    omap (fun k => (fun v => {| key := k; value := v; readonly := false |})
                     <$> config st !! k) requested in
  let unknown_key :=
    List.filter (fun k => negb (bool_decide (is_Some (config st !! k))))
                requested in
  ret (configuration_key,
       match unknown_key with
       | [] => None
       | _ => Some unknown_key
       end).

End G3.


(** ** EVBoxMock ([mock_EVBOX.py]) *)

Module Mock.

Record state := mk_state {
  connected : bool;
  status : ChargePointStatus.t;
  connector_id : Z;
  current_id_tag : option string;
  transaction_id : option Z;
  charging : bool;
  meter_wh_counter : Z;
  meter_start_wh : Z;
  heartbeat_interval : Z;
  meter_values_interval : Z;
  authorize_required : bool
}.

Definition id_tag_default : string := "ABC123456".

Definition set_connected (v : bool) (st : state) : state :=
  mk_state v (status st) (connector_id st) (current_id_tag st)
           (transaction_id st) (charging st) (meter_wh_counter st)
           (meter_start_wh st) (heartbeat_interval st)
           (meter_values_interval st) (authorize_required st).
Definition set_status (v : ChargePointStatus.t) (st : state) : state :=
  mk_state (connected st) v (connector_id st) (current_id_tag st)
           (transaction_id st) (charging st) (meter_wh_counter st)
           (meter_start_wh st) (heartbeat_interval st)
           (meter_values_interval st) (authorize_required st).
Definition set_current_id_tag (v : option string) (st : state) : state :=
  mk_state (connected st) (status st) (connector_id st) v
           (transaction_id st) (charging st) (meter_wh_counter st)
           (meter_start_wh st) (heartbeat_interval st)
           (meter_values_interval st) (authorize_required st).
Definition set_transaction_id (v : option Z) (st : state) : state :=
  mk_state (connected st) (status st) (connector_id st) (current_id_tag st)
           v (charging st) (meter_wh_counter st)
           (meter_start_wh st) (heartbeat_interval st)
           (meter_values_interval st) (authorize_required st).
Definition set_charging (v : bool) (st : state) : state :=
  mk_state (connected st) (status st) (connector_id st) (current_id_tag st)
           (transaction_id st) v (meter_wh_counter st)
           (meter_start_wh st) (heartbeat_interval st)
           (meter_values_interval st) (authorize_required st).
Definition set_meter_wh_counter (v : Z) (st : state) : state :=
  mk_state (connected st) (status st) (connector_id st) (current_id_tag st)
           (transaction_id st) (charging st) v
           (meter_start_wh st) (heartbeat_interval st)
           (meter_values_interval st) (authorize_required st).
Definition set_meter_start_wh (v : Z) (st : state) : state :=
  mk_state (connected st) (status st) (connector_id st) (current_id_tag st)
           (transaction_id st) (charging st) (meter_wh_counter st)
           v (heartbeat_interval st)
           (meter_values_interval st) (authorize_required st).
Definition set_heartbeat_interval (v : Z) (st : state) : state :=
  mk_state (connected st) (status st) (connector_id st) (current_id_tag st)
           (transaction_id st) (charging st) (meter_wh_counter st)
           (meter_start_wh st) v
           (meter_values_interval st) (authorize_required st).
Definition set_meter_values_interval (v : Z) (st : state) : state :=
  mk_state (connected st) (status st) (connector_id st) (current_id_tag st)
           (transaction_id st) (charging st) (meter_wh_counter st)
           (meter_start_wh st) (heartbeat_interval st)
           v (authorize_required st).
Definition set_authorize_required (v : bool) (st : state) : state :=
  mk_state (connected st) (status st) (connector_id st) (current_id_tag st)
           (transaction_id st) (charging st) (meter_wh_counter st)
           (meter_start_wh st) (heartbeat_interval st)
           (meter_values_interval st) v.

(** [__init__] *)
Definition init : state :=
  {| connected := true;
     status := ChargePointStatus.available;
     connector_id := 1;
     current_id_tag := None;
     transaction_id := None;
     charging := false;
     meter_wh_counter := 0;
     meter_start_wh := 0;
     heartbeat_interval := 900;
     meter_values_interval := 30;
     authorize_required := true |}.

(** The replies that decide the control flow of a charging sequence: the
    status of the reply to [Authorize] and the transaction id of the reply
    to [StartTransaction] ([None]: the call raises), and whether the call
    of [MeterValues] of sample [i] and the call of [StopTransaction]
    return. *)
Record csms := {
  authorize_reply : option AuthorizationStatus.t;
  start_transaction_reply : option Z;
  meter_values_ok : Z -> bool;
  stop_transaction_ok : bool
}.

Local Open Scope eff_scope.

(** *** Connection and heartbeat *)

Definition start (boot : option call_result.BootNotification) : M state unit :=
  emit (Create_task Task_listener) ;;
  emit Call_BootNotification ;;
  match boot with
  | Some resp =>
      modify (set_heartbeat_interval (or_Z (call_result.interval resp) 900)) ;;
      match call_result.status resp with
      | RegistrationStatus.accepted =>
          emit (Create_task Task_heartbeat) ;;
          emit (Create_task Task_post_boot_notifications)
      | _ => modify (set_connected false)
      end
  | None => modify (set_connected false)
  end.

(** [periodic_heartbeat]; [replies] as in [G3._heartbeat_task]. *)
Fixpoint periodic_heartbeat (replies : list bool) : M state unit :=
  st <- get ;;
  if connected st then
    match replies with
    | [] => ret tt
    | ok :: rest =>
        emit (Sleep (heartbeat_interval st)) ;;
        st1 <- get ;;
        when (connected st1)
          (emit Call_Heartbeat ;;
           when (negb ok) (modify (set_connected false))) ;;
        periodic_heartbeat rest
    end
  else ret tt.

(** *** Handlers of the calls of the CSMS *)

Definition on_remote_start_transaction (connector : Z) (id_tag : string)
  : M state RemoteStartStopStatus.t :=
  emit (Create_task (Task_start_session id_tag)) ;;
  ret RemoteStartStopStatus.Accepted.

(** [self.transaction_id == transaction_id] *)
Definition transaction_id_is (st : state) (tx : Z) : bool :=
  match transaction_id st with
  | Some n => Z.eqb n tx
  | None => false
  end.

Definition on_remote_stop_transaction (tx : Z) : M state RemoteStartStopStatus.t :=
  st <- get ;;
  if charging st && transaction_id_is st tx then
    modify (set_charging false) ;;
    ret RemoteStartStopStatus.Accepted
  else ret RemoteStartStopStatus.Rejected.

(** The dict [store] built by [on_get_configuration], in its order. *)
Definition store (st : state) : list (string * string) :=
  [ ("AuthorizeRequired", if authorize_required st then "true" else "false");
    ("MeterValuesSampleInterval", str_Z (meter_values_interval st));
    ("HeartbeatInterval", str_Z (heartbeat_interval st));
    ("evb_AutoStart", if authorize_required st then "0" else "1") ].

Definition store_lookup (st : state) (k : string) : option string :=
  snd <$> List.find (fun kv => String.eqb (fst kv) k) (store st).

(** [on_get_configuration]: the entries found and the unknown keys. *)
Definition on_get_configuration (key : option (list string)) (st : state)
  : list (string * string) * list string :=
  let requested :=
    match key with
    | Some (k :: ks) => k :: ks
    | _ => List.map fst (store st)
    end in
  (omap (fun k => (fun v => (k, v)) <$> store_lookup st k) requested,
   List.filter (fun k => negb (bool_decide (is_Some (store_lookup st k)))) requested).

Definition on_change_configuration (key value : string)
  : M state ConfigurationStatus.t :=
  if String.eqb key "AuthorizeRequired" then
    let b := String.eqb (lower value) "true" in
    modify (set_authorize_required b) ;;
    emit (Gui_update_autostart_status (negb b)) ;;
    ret ConfigurationStatus.accepted
  else if String.eqb key "evb_AutoStart" then
    let autostart_on := str_in value ["1"; "true"; "yes"] in
    modify (set_authorize_required (negb autostart_on)) ;;
    emit (Gui_update_autostart_status autostart_on) ;;
    ret ConfigurationStatus.accepted
  else if String.eqb key "HeartbeatInterval" then
    match py_int value with
    | Some n =>
        modify (set_heartbeat_interval n) ;;
        ret ConfigurationStatus.accepted
    | None => ret ConfigurationStatus.rejected
    end
  else if String.eqb key "MeterValuesSampleInterval" then
    match py_int value with
    | Some n =>
        modify (set_meter_values_interval (Z.max 1 n)) ;;
        ret ConfigurationStatus.accepted
    | None => ret ConfigurationStatus.rejected
    end
  else ret ConfigurationStatus.not_supported.

(** *** The charging sequence *)

Definition _send_status (s : ChargePointStatus.t) : M state unit :=
  modify (set_status s) ;;
  st <- get ;;
  emit (Call_StatusNotification (connector_id st) s None).

Definition _send_start_transaction (cs : csms) (id_tag : string) : M state unit :=
  modify (set_current_id_tag (Some id_tag)) ;;
  modify (fun st => set_meter_start_wh (meter_wh_counter st) st) ;;
  st <- get ;;
  emit (Call_StartTransaction (connector_id st) id_tag (meter_start_wh st)) ;;
  match start_transaction_reply cs with
  | Some tx => modify (set_transaction_id (Some tx))
  | None => modify (set_charging false)
  end.

(** [round(a / b)] for [0 < b], to the nearest integer and to the even
    one at a tie.  The quotients taken below are multiples of 1/8, which
    floating point represents exactly. *)
Definition round_div (a b : Z) : Z :=
  let q := a / b in
  let r := a mod b in
  if Z.ltb (2 * r) b then q
  else if Z.ltb b (2 * r) then q + 1
  else if Z.even q then q else q + 1.

(** The body of [for i in range(1, 11)] in [_simulate_meter_values],
    over the values of [i] that remain. *)
Fixpoint meter_loop (cs : csms) (remaining : list Z) : M state unit :=
  match remaining with
  | [] => ret tt
  | i :: rest =>
      st <- get ;;
      if negb (charging st) || negb (connected st) then ret tt
      else
        let power_w := i * 150 in
        let step_wh := Z.max 1 (round_div (power_w * 3) 3600) in
        modify (set_meter_wh_counter (meter_wh_counter st + step_wh)) ;;
        st1 <- get ;;
        emit (Call_MeterValues (transaction_id st1) (Some power_w)
                (meter_wh_counter st1)) ;;
        if meter_values_ok cs i then
          emit (Gui_update_energy_values power_w (meter_wh_counter st1)) ;;
          meter_loop cs rest
        else ret tt
  end.

Definition _simulate_meter_values (cs : csms) : M state unit :=
  meter_loop cs (seqZ 1 10).

Definition _send_transaction_end_sample : M state unit :=
  st <- get ;;
  emit (Call_MeterValues (transaction_id st) None (meter_wh_counter st)).

Definition _send_stop_transaction (cs : csms) (reason : string) : M state unit :=
  st <- get ;;
  emit (Call_StopTransaction (transaction_id st)
          (or_str (current_id_tag st) id_tag_default)
          (meter_wh_counter st) reason) ;;
  when (stop_transaction_ok cs)
    (modify (set_transaction_id None) ;;
     modify (set_current_id_tag None)).

(** [start_charging_sequence] from the point where the meter samples
    begin, over the samples that remain: the loop, then the end of the
    sequence. *)
Definition charging_sequence_from (cs : csms) (remaining : list Z) : M state unit :=
  meter_loop cs remaining ;;
  st <- get ;;
  when (charging st)
    (_send_transaction_end_sample ;;
     _send_stop_transaction cs "Local" ;;
     _send_status ChargePointStatus.available ;;
     emit (Gui_update_charging_status Disponivel)) ;;
  modify (set_charging false).

(** [start_charging_sequence] once the tag is authorized. *)
Definition charging_sequence_authorized (cs : csms) (id_tag : string)
  : M state unit :=
  modify (set_charging true) ;;
  emit (Gui_update_charging_status Carregando) ;;
  _send_status ChargePointStatus.preparing ;;
  _send_start_transaction cs id_tag ;;
  _send_status ChargePointStatus.charging ;;
  charging_sequence_from cs (seqZ 1 10).

Definition start_charging_sequence (cs : csms) (id_tag : string) : M state unit :=
  st <- get ;;
  if charging st then ret tt
  else if negb (authorize_required st) then
    charging_sequence_authorized cs "autostart"
  else
    emit (Call_Authorize id_tag) ;;
    match authorize_reply cs with
    | None => ret tt
    | Some AuthorizationStatus.accepted => charging_sequence_authorized cs id_tag
    | Some _ => emit (Gui_update_charging_status RFID_nao_autorizado)
    end.

(** [resume_connection]: the transport is replaced and the listener and
    the heartbeat are started again, without a [BootNotification]. *)
Definition resume_connection : M state unit :=
  modify (set_connected true) ;;
  emit (Create_task Task_listener) ;;
  emit (Create_task Task_heartbeat).

End Mock.


(** ** Vocabulary of the properties *)

(** Two flags of a configuration, read through [lookup], are both there
    and are the inverse of each other. *)
Definition flags_inverse (lookup : string -> option string) (k1 k2 : string)
  : Prop :=
  exists a b, lookup k1 = Some a /\ lookup k2 = Some b
              /\ G3._as_bool a = negb (G3._as_bool b).

(** The messages of the three meter samples of a session that starts
    with the register at [e]. *)
Definition three_samples (c e tx : Z) : list event :=
  [ Call_MeterValues (Some tx) None (e + 1280);
    Gui_update_energy_values 460800 (e + 1280);
    Call_DataTransfer_evbStatusNotification c "Charging" "Blue" 1 (e + 1280) tx;
    Call_MeterValues (Some tx) None (e + 1280 + 1280);
    Gui_update_energy_values 460800 (e + 1280 + 1280);
    Call_DataTransfer_evbStatusNotification c "Charging" "Blue" 1
      (e + 1280 + 1280) tx;
    Call_MeterValues (Some tx) None (e + 1280 + 1280 + 1280);
    Gui_update_energy_values 460800 (e + 1280 + 1280 + 1280);
    Call_DataTransfer_evbStatusNotification c "Charging" "Blue" 1
      (e + 1280 + 1280 + 1280) tx ].

(** The trace of a session whose [StartTransaction] is accepted with the
    transaction id [tx]; [samples] are the messages of the metering
    loop and [e'] is the register when the loop ends. *)
Definition accepted_trace (st : G3.state) (id_tag : string) (tx : Z)
    (samples : list event) (e' : Z) (stopped : bool) : list event :=
  ([ Call_StatusNotification (G3.connector_id st) ChargePointStatus.preparing None;
     Call_DataTransfer_evbStatusNotification (G3.connector_id st) "Preparing"
       "Off" 0 (G3.energy_wh_counter st) (G3.tx_id_or_0 st);
     Call_StartTransaction (G3.connector_id st) id_tag (G3.energy_wh_counter st);
     Call_StatusNotification (G3.connector_id st) ChargePointStatus.suspended_evse
       (Some "B;425");
     Call_DataTransfer_evbStatusNotification (G3.connector_id st) "SuspendedEVSE"
       "Yellow" 1 (G3.energy_wh_counter st) tx;
     Call_StatusNotification (G3.connector_id st) ChargePointStatus.charging
       (Some "C;424");
     Call_DataTransfer_evbStatusNotification (G3.connector_id st) "Charging"
       "Blue" 1 (G3.energy_wh_counter st) tx;
     Gui_update_charging_status Carregando ]
   ++ samples
   ++ [ Call_StopTransaction (Some tx) (G3.gui_id_tag st) e' "Local";
        Call_StatusNotification (G3.connector_id st) ChargePointStatus.finishing None;
        Call_DataTransfer_evbStatusNotification (G3.connector_id st) "Finishing"
          "Green" 0 e' (if stopped then 0 else tx);
        Call_StatusNotification (G3.connector_id st) ChargePointStatus.available None;
        Call_DataTransfer_evbStatusNotification (G3.connector_id st) "Available"
          "Green" 0 e' (if stopped then 0 else tx);
        Gui_update_charging_status Disponivel ])%list.

(** The events of a trace of one kind. *)
Definition is_StartTransaction (e : event) : bool :=
  match e with Call_StartTransaction _ _ _ => true | _ => false end.

Definition is_Authorize (e : event) : bool :=
  match e with Call_Authorize _ => true | _ => false end.

Definition is_MeterValues (e : event) : bool :=
  match e with Call_MeterValues _ _ _ => true | _ => false end.

Definition is_Heartbeat (e : event) : bool :=
  match e with Call_Heartbeat => true | _ => false end.

(** [k] cycles of a heartbeat that sleeps for [hb] seconds. *)
Definition heartbeat_cycles (k : nat) (hb : Z) : list event :=
  List.concat (repeat [Sleep hb; Call_Heartbeat] k).

(** A sequence of [ChangeConfiguration] calls handled one after the
    other by EVBoxG3Simulator; the state they leave. *)
Fixpoint g3_change_all (writes : list (string * string)) (st : G3.state)
  : G3.state :=
  match writes with
  | [] => st
  | (k, v) :: rest =>
      g3_change_all rest (final (G3.on_change_configuration k v st))
  end.

(** The keys of the store of EVBoxG3Simulator. *)
Definition g3_known_keys : list string :=
  ["AuthorizeRequired"; "HeartbeatInterval"; "MeterValuesSampleInterval";
   "evb_SkipAuthorize"].

(** The two authorization flags of the store of EVBoxG3Simulator hold the
    canonical strings of one boolean [b] and of its inverse, and the
    field [authorize_required], once it exists, is [b]. *)
Definition g3_flags_ok (st : G3.state) : Prop :=
  G3.config_ok st
  /\ exists b : bool,
       G3.config st !! "AuthorizeRequired" = Some (if b then "true" else "false")
       /\ G3.config st !! "evb_SkipAuthorize" = Some (if b then "0" else "1")
       /\ (G3.authorize_required st = Some b
           \/ G3.authorize_required st = None /\ G3._config st = None).

(** The keys of the configuration of EVBoxMock. *)
Definition mock_known_keys : list string :=
  ["AuthorizeRequired"; "MeterValuesSampleInterval"; "HeartbeatInterval";
   "evb_AutoStart"].

(** The messages of the samples [ids] of EVBoxMock when each of them adds
    1 Wh to a register that stands at [m + j]. *)
Fixpoint mock_sample_events (tx : option Z) (m j : Z) (ids : list Z) : list event :=
  match ids with
  | [] => []
  | i :: rest =>
      Call_MeterValues tx (Some (i * 150)) (m + (j + 1))
      :: Gui_update_energy_values (i * 150) (m + (j + 1))
      :: mock_sample_events tx m (j + 1) rest
  end.

(** * Properties *)

(** ** Strings *)

Section StringFacts.

Lemma split_on_cons_inv (sep : ascii) (s : string) :
  exists t ts, split_on sep s = t :: ts.
Proof.
  induction s as [|c s IH]; simpl.
  - eauto.
  - destruct (Ascii.eqb c sep); [eauto|].
    destruct IH as (t & ts & ->). eauto.
Qed.

(** A piece without separator, followed by a separator, is the first
    field. *)
Lemma split_on_piece (sep : ascii) (p r : string) :
  lacks sep p = true ->
  split_on sep (p ++ String sep r) = p :: split_on sep r.
Proof.
  induction p as [|c p IH]; simpl; intros H.
  - now rewrite Ascii.eqb_refl.
  - apply andb_prop in H as [Hc Hp].
    apply negb_true_iff in Hc. rewrite Hc, (IH Hp). reflexivity.
Qed.

Lemma split_on_last (sep : ascii) (p : string) :
  lacks sep p = true -> split_on sep p = [p].
Proof.
  induction p as [|c p IH]; simpl; intros H; [reflexivity|].
  apply andb_prop in H as [Hc Hp].
  apply negb_true_iff in Hc. rewrite Hc, (IH Hp). reflexivity.
Qed.

(** Splitting undoes joining when no part holds a comma. *)
Lemma split_on_join (ps : list string) :
  ps <> [] ->
  Forall (fun p => lacks "," p = true) ps ->
  split_on "," (join ps) = ps.
Proof.
  unfold join. induction ps as [|p ps IH]; intros Hne Hall; [congruence|].
  inversion Hall as [|? ? Hp Hps]; subst.
  destruct ps as [|q ps].
  - simpl. now apply split_on_last.
  - change (String.concat "," (p :: q :: ps))
      with (p ++ String "," (String.concat "," (q :: ps))).
    rewrite split_on_piece by assumption.
    rewrite IH; [reflexivity | congruence | assumption].
Qed.

Lemma string_of_uint_lacks_comma (d : Decimal.uint) :
  lacks "," (NilEmpty.string_of_uint d) = true.
Proof. induction d; simpl; auto. Qed.

Lemma str_Z_lacks_comma (z : Z) : lacks "," (str_Z z) = true.
Proof.
  unfold str_Z, NilZero.string_of_int, NilZero.string_of_uint.
  destruct (Z.to_int z) as [d|d]; destruct d; simpl;
    auto using string_of_uint_lacks_comma.
Qed.

(** A receiver reads back the integer that [str] printed. *)
Lemma dec_int_str_Z (z : Z) : Compact.dec_int (str_Z z) = Some z.
Proof.
  unfold Compact.dec_int, str_Z.
  rewrite NilZero.isi.
  - simpl. now rewrite DecimalZ.of_to.
  - destruct z; simpl; try discriminate.
    intros [= H]. now apply Unsigned.to_uint_nonnil in H.
  - destruct z; simpl; try discriminate.
    intros [= H]. now apply Unsigned.to_uint_nonnil in H.
Qed.

Lemma is_digit_not_int_space (c : ascii) :
  is_digit c = true -> is_int_space c = false.
Proof.
  unfold is_digit, is_int_space. cbv zeta.
  generalize (N_of_ascii c) as n. intros n H.
  apply andb_prop in H as [H1 H2].
  apply N.leb_le in H1. apply N.leb_le in H2.
  apply orb_false_iff. split.
  - apply andb_false_iff. right. apply N.leb_gt. lia.
  - apply N.eqb_neq. lia.
Qed.

(** The white space of [int()] is white space of [str.strip()], which
    has four characters more. *)
Lemma is_int_space_is_space (c : ascii) :
  is_int_space c = true -> is_space c = true.
Proof.
  unfold is_int_space, is_space. cbv zeta.
  generalize (N_of_ascii c) as n. intros n H.
  apply orb_true_iff in H as [H | H]; apply orb_true_iff.
  - now left.
  - right. apply N.eqb_eq in H. subst. reflexivity.
Qed.

Lemma int_lstrip_digits (s : string) : all_digits s = true -> int_lstrip s = s.
Proof.
  destruct s as [|c s]; simpl; [reflexivity|]. intros H.
  apply andb_prop in H as [Hc _]. now rewrite (is_digit_not_int_space _ Hc).
Qed.

Lemma int_rstrip_digits (s : string) : all_digits s = true -> int_rstrip s = s.
Proof.
  induction s as [|c s IH]; simpl; [reflexivity|]. intros H.
  apply andb_prop in H as [Hc Hs]. rewrite (IH Hs).
  destruct s; [|reflexivity]. now rewrite (is_digit_not_int_space _ Hc).
Qed.

Lemma int_strip_digits (s : string) : all_digits s = true -> int_strip s = s.
Proof.
  intros H. unfold int_strip. rewrite (int_rstrip_digits _ H).
  now apply int_lstrip_digits.
Qed.

Lemma digit_val_nonneg (c : ascii) : is_digit c = true -> 0 <= digit_val c.
Proof.
  unfold is_digit, digit_val. cbv zeta. intros H.
  apply andb_prop in H as [H1 _]. apply N.leb_le in H1. lia.
Qed.

Lemma int_digits_all_digits (s : string) (acc : Z) :
  all_digits s = true -> 0 <= acc ->
  exists n, int_digits acc false s = Some n /\ 0 <= n.
Proof.
  revert acc. induction s as [|c s IH]; simpl; intros acc H Hacc.
  - eauto.
  - apply andb_prop in H as [Hc Hs]. rewrite Hc.
    apply IH; [assumption|]. pose proof (digit_val_nonneg _ Hc). lia.
Qed.

(** On a string of digits [int] succeeds, with a result that is not
    negative. *)
Lemma py_int_isdigit (s : string) :
  isdigit s = true -> exists n, py_int s = Some n /\ 0 <= n.
Proof.
  destruct s as [|c s]; [discriminate|]. unfold isdigit. intros H.
  unfold py_int. rewrite (int_strip_digits _ H).
  simpl in H. apply andb_prop in H as [Hc Hs].
  assert (Hplus : c <> "+"%char) by (intros ->; discriminate).
  assert (Hminus : c <> "-"%char) by (intros ->; discriminate).
  assert (Hu : exists n, int_unsigned (String c s) = Some n /\ 0 <= n).
  { simpl. rewrite Hc. apply int_digits_all_digits; [assumption|].
    now apply digit_val_nonneg. }
  destruct c as [[] [] [] [] [] [] [] []]; try exact Hu; congruence.
Qed.

(** [int] skips less than [str.strip()] removes: the separator FS before
    the digits is removed by [strip] and is an error for [int], which
    reads the digits between a TAB and a line feed. *)
Remark py_int_white_space :
  strip (String "028" "12") = "12"
  /\ py_int (String "028" "12") = None
  /\ py_int (String "009" (String "-" (String "1" (String "2" (String "010" "")))))
     = Some (-12)
  /\ py_int "+ 12" = None
  /\ py_int "1__2" = None.
Proof. repeat split. Qed.

End StringFacts.

(** ** The compact vendor status string *)

Section CompactFacts.

Lemma append_assoc (a b c : string) : (a ++ b) ++ c = a ++ (b ++ c).
Proof.
  induction a as [|x a IH]; [reflexivity|].
  change (String x ((a ++ b) ++ c) = String x (a ++ (b ++ c))).
  now rewrite IH.
Qed.

Lemma build_join_tokens utc_iso_z connector_id status error_code error_desc
    led_color plugged energy_register_wh tx_id :
  Compact.build_evb_status_compact utc_iso_z connector_id status error_code
    error_desc led_color plugged energy_register_wh tx_id
  = join (Compact.tokens utc_iso_z connector_id status error_code error_desc led_color
            plugged energy_register_wh tx_id).
Proof.
  unfold Compact.build_evb_status_compact, Compact.parts, Compact.tokens, join.
  cbv zeta. cbn [String.concat].
  rewrite !append_assoc. reflexivity.
Qed.

Lemma tokens_lack_comma utc_iso_z connector_id status error_code error_desc
    led_color plugged energy_register_wh tx_id :
  lacks "," status = true -> lacks "," error_code = true ->
  lacks "," error_desc = true -> lacks "," led_color = true ->
  lacks "," utc_iso_z = true ->
  Forall (fun p => lacks "," p = true)
    (Compact.tokens utc_iso_z connector_id status error_code error_desc
       led_color plugged energy_register_wh tx_id).
Proof.
  intros. unfold Compact.tokens.
  repeat (constructor; [first [assumption | apply str_Z_lacks_comma
    | reflexivity | apply (str_Z_lacks_comma energy_register_wh)] |]).
  constructor.
Qed.

Lemma split_build utc_iso_z connector_id status error_code error_desc
    led_color plugged energy_register_wh tx_id :
  lacks "," status = true -> lacks "," error_code = true ->
  lacks "," error_desc = true -> lacks "," led_color = true ->
  lacks "," utc_iso_z = true ->
  split_on "," (Compact.build_evb_status_compact utc_iso_z connector_id status
                  error_code error_desc led_color plugged energy_register_wh
                  tx_id)
  = Compact.tokens utc_iso_z connector_id status error_code error_desc
      led_color plugged energy_register_wh tx_id.
Proof.
  intros. rewrite build_join_tokens. apply split_on_join.
  - discriminate.
  - now apply tokens_lack_comma.
Qed.

Lemma or_Z_0 (z : Z) : or_Z z 0 = z.
Proof. unfold or_Z. destruct (Z.eqb_spec z 0); congruence. Qed.

(** C5, as amended: the encoder joins with commas exactly 25 parts, for
    every input: the connector id, the status, the error code, the error
    description, the vehicle-present flag (1 exactly for the statuses
    Charging and SuspendedEVSE), the LED colour, the plugged flag, the
    three-value group, the energy group, the four-value group, three
    numbers, the time stamp, the transaction id (or 0), one number, the
    nine-value group, seven numbers and, last, the firmware poll
    interval. *)
Theorem compact_status_layout utc_iso_z connector_id status error_code
    error_desc led_color plugged energy_register_wh tx_id :
  let ps := Compact.parts utc_iso_z connector_id status error_code error_desc
              led_color plugged energy_register_wh tx_id in
  Compact.build_evb_status_compact utc_iso_z connector_id status error_code
    error_desc led_color plugged energy_register_wh tx_id = String.concat "," ps
  /\ length ps = 25%nat
  /\ firstn 7 ps =
       [ str_Z connector_id; status; error_code; error_desc;
         (if (String.eqb status "Charging" || String.eqb status "SuspendedEVSE")%bool
          then "1" else "0");
         led_color; str_Z plugged ]
  /\ firstn 10 (skipn 7 ps) =
       [ "{32,4784,41}"; "{" ++ str_Z energy_register_wh ++ ",0}";
         "{C,11912,5908,11944}"; "16"; "6680"; "445"; utc_iso_z;
         str_Z (if Z.eqb tx_id 0 then 0 else tx_id); "96";
         "{245,0,0,0,0,0,1000,0,0}" ]
  /\ skipn 17 ps = [ "49"; "0"; "0"; "0"; "0"; "0"; "250"; "5000" ].
Proof.
  cbv zeta. repeat split.
  unfold Compact.parts, str_in. cbn [firstn existsb].
  rewrite orb_false_r.
  destruct (String.eqb status "Charging" || String.eqb status "SuspendedEVSE")%bool;
    reflexivity.
Qed.

(** C5, as stated, fails: the encoder joins 25 parts, not 24, and between
    the commas of the string there are 39 tokens. *)
Lemma compact_status_24_fields_counterexample :
  length (Compact.parts "2026-01-01T00:00:00Z" 1 "Available" "NoError"
            "No error." "Green" 0 11905680 0) <> 24%nat
  /\ length (split_on "," (Compact.build_evb_status_compact
               "2026-01-01T00:00:00Z" 1 "Available" "NoError" "No error."
               "Green" 0 11905680 0)) = 39%nat.
Proof. split; [vm_compute; discriminate | vm_compute; reflexivity]. Qed.

(** C8, as amended: when neither the status, the error code, the error
    description, the LED colour nor the time stamp holds a comma,
    splitting the encoded string at its commas gives back the connector
    id, the status, the LED colour, the plugged flag, the energy register
    and the transaction id, at the tokens 0, 1, 5, 6, 10 (behind the
    opening brace of its group) and 20. *)
Theorem compact_status_round_trip utc_iso_z connector_id status error_code
    error_desc led_color plugged energy_register_wh tx_id :
  lacks "," status = true -> lacks "," error_code = true ->
  lacks "," error_desc = true -> lacks "," led_color = true ->
  lacks "," utc_iso_z = true ->
  Compact.decode
    (Compact.build_evb_status_compact utc_iso_z connector_id status error_code
       error_desc led_color plugged energy_register_wh tx_id)
  = Some (connector_id, status, led_color, plugged, energy_register_wh, tx_id).
Proof.
  intros. unfold Compact.decode. cbv zeta.
  rewrite split_build by assumption.
  unfold Compact.tokens. cbn [nth_error].
  change (Compact.strip_open_brace ("{" ++ str_Z energy_register_wh))
    with (Some (str_Z energy_register_wh)).
  cbn [option_bind]. rewrite !dec_int_str_Z, or_Z_0. reflexivity.
Qed.

Lemma compact_status_round_trip_witness :
  Compact.decode
    (Compact.build_evb_status_compact "2026-01-01T00:00:00Z" 1 "Charging"
       "NoError" "No error." "Blue" 1 11905680 77)
  = Some (1, "Charging", "Blue", 1, 11905680, 77).
Proof.
  apply (compact_status_round_trip "2026-01-01T00:00:00Z" 1 "Charging"
           "NoError" "No error." "Blue" 1 11905680 77); reflexivity.
Defined.

(** C8, as stated, fails: a status that holds a comma moves the fields
    that follow it, and two different choices of status and LED colour
    have the same encoding, so that no decoder recovers both. *)
Lemma compact_status_round_trip_counterexample :
  Compact.decode (Compact.encode "2026-01-01T00:00:00Z" 1 "a,b" "Green" 0 11905680 0)
    <> Some (1, "a,b", "Green", 0, 11905680, 0)
  /\ Compact.encode "2026-01-01T00:00:00Z" 1 "X,NoError,No error.,0,Y" "Green"
       0 11905680 0
     = Compact.encode "2026-01-01T00:00:00Z" 1 "X" "Y,NoError,No error.,0,Green"
         0 11905680 0.
Proof. split; [vm_compute; discriminate | vm_compute; reflexivity]. Qed.

End CompactFacts.

(** ** EVBoxG3Simulator: the session *)

(** Runs a coroutine on a state whose fields are known. *)
Ltac run_g3 :=
  cbv [G3.start_session_flow G3.stop_session G3.on_remote_stop_transaction
       G3.send_start_transaction G3.send_status G3.send_evb_datatransfer
       G3.send_stop_transaction G3.send_meter_values
       G3.start G3.on_change_configuration
       bind ret get modify emit when result final trace];
  cbn.

Section G3Session.

Import G3.

Lemma accepted_iff (resp : call_result.StartTransaction) :
  accepted resp = true <->
  call_result.id_tag_info_status resp = AuthorizationStatus.accepted
  /\ 0 < call_result.transaction_id resp.
Proof.
  unfold accepted. cbv zeta. rewrite andb_true_iff, Z.ltb_lt.
  destruct resp as [s tx]; simpl.
  destruct s; vm_compute; intuition congruence.
Qed.

(** On the raw string the comparison ignores the case of the letters;
    the statuses of OCPP 1.6 differ by more than their case. *)
Remark status_is_accepted_ignores_case :
  status_is_accepted "ACCEPTED" = true /\ status_is_accepted "accepted" = true.
Proof. split; reflexivity. Qed.

(** The run of a session whose [StartTransaction] is not accepted. *)
Lemma start_session_flow_rejected (st : state) (id_tag : string)
    (resp : call_result.StartTransaction) (stop_ok : bool) :
  charging st = false -> accepted resp = false ->
  start_session_flow {| start_transaction_reply := Some resp;
                        stop_transaction_ok := stop_ok |} id_tag st
  = (tt, set_charging false (set_tx_id None st),
     [ Call_StatusNotification (connector_id st) ChargePointStatus.preparing None;
       Call_DataTransfer_evbStatusNotification (connector_id st) "Preparing"
         "Off" 0 (energy_wh_counter st) (tx_id_or_0 st);
       Call_StartTransaction (connector_id st) id_tag (energy_wh_counter st);
       Call_StatusNotification (connector_id st) ChargePointStatus.available None;
       Call_DataTransfer_evbStatusNotification (connector_id st) "Available"
         "Green" 0 (energy_wh_counter st) 0;
       Gui_update_charging_status Disponivel ]).
Proof.
  intros Hc Ha. destruct st; simpl in *; subst.
  run_g3. rewrite Ha. reflexivity.
Qed.

Lemma start_session_flow_accepted (st : state) (id_tag : string)
    (resp : call_result.StartTransaction) (stop_ok : bool) :
  charging st = false -> accepted resp = true ->
  let tx := call_result.transaction_id resp in
  let e := energy_wh_counter st in
  trace (start_session_flow {| start_transaction_reply := Some resp;
                               stop_transaction_ok := stop_ok |} id_tag st)
  = if connected st
    then accepted_trace st id_tag tx (three_samples (connector_id st) e tx)
           (e + 1280 + 1280 + 1280) stop_ok
    else accepted_trace st id_tag tx [] e stop_ok.
Proof.
  intros Hc Ha. apply accepted_iff in Ha as Ha'. destruct Ha' as [_ Hpos].
  assert (Hne : Z.eqb (call_result.transaction_id resp) 0 = false)
    by (apply Z.eqb_neq; lia).
  apply Z.ltb_lt in Hpos.
  destruct st as [c hb t e ch con cfg ar tag]; simpl in *; subst.
  unfold accepted_trace, three_samples.
  destruct con, stop_ok; run_g3; rewrite Ha; cbn; unfold tx_ok; cbn;
    rewrite Hpos; cbn; unfold tx_id_or_0, or_Z; cbn; rewrite ?Hne;
    reflexivity.
Qed.

(** C1: a session whose [StartTransaction] is answered announces
    Charging exactly when the status of the answer is Accepted and its
    transaction id is positive, and then, on a live connection, the
    metering loop sends its three samples.  In every other case the
    session sends StatusNotification(Available) and the vendor status
    and nothing else, sends no meter sample, and ends idle, without a
    transaction id. *)
Theorem start_transaction_acceptance_rule (st : state) (id_tag : string)
    (resp : call_result.StartTransaction) (stop_ok : bool) :
  charging st = false ->
  let r := start_session_flow {| start_transaction_reply := Some resp;
                                 stop_transaction_ok := stop_ok |} id_tag st in
  let ok := call_result.id_tag_info_status resp = AuthorizationStatus.accepted
            /\ 0 < call_result.transaction_id resp in
  let e := energy_wh_counter st in
  (enters_charging (trace r) = true <-> ok)
  /\ (ok -> In (Gui_update_charging_status Carregando) (trace r))
  /\ (ok -> connected st = true ->
       meter_samples (trace r) = [e + 1280; e + 1280 + 1280; e + 1280 + 1280 + 1280])
  /\ (~ ok ->
       trace r =
         [ Call_StatusNotification (connector_id st) ChargePointStatus.preparing None;
           Call_DataTransfer_evbStatusNotification (connector_id st) "Preparing"
             "Off" 0 e (tx_id_or_0 st);
           Call_StartTransaction (connector_id st) id_tag e;
           Call_StatusNotification (connector_id st) ChargePointStatus.available None;
           Call_DataTransfer_evbStatusNotification (connector_id st) "Available"
             "Green" 0 e 0;
           Gui_update_charging_status Disponivel ]
       /\ meter_samples (trace r) = []
       /\ tx_id (final r) = None
       /\ charging (final r) = false).
Proof.
  intros Hc. cbv zeta. destruct (accepted resp) eqn:Ha.
  - pose proof (proj1 (accepted_iff resp) Ha) as Hok.
    rewrite (start_session_flow_accepted st id_tag resp stop_ok Hc Ha).
    split; [|split; [|split]].
    + split; [tauto|]. intros _. destruct (connected st); reflexivity.
    + intros _. destruct (connected st); cbn; auto 20.
    + intros _ ->. reflexivity.
    + tauto.
  - assert (Hno : ~ (call_result.id_tag_info_status resp = AuthorizationStatus.accepted
                     /\ 0 < call_result.transaction_id resp)).
    { intros Hok. apply accepted_iff in Hok. congruence. }
    rewrite (start_session_flow_rejected st id_tag resp stop_ok Hc Ha).
    split; [|split; [|split]].
    + split; [cbn; discriminate | tauto].
    + tauto.
    + tauto.
    + intros _. repeat split.
Qed.

Lemma start_transaction_acceptance_rule_witness :
  enters_charging
    (trace (start_session_flow
              {| start_transaction_reply :=
                   Some {| call_result.id_tag_info_status := AuthorizationStatus.accepted;
                           call_result.transaction_id := 0 |};
                 stop_transaction_ok := true |} "TAG" (init "TAG"))) = true
  <-> AuthorizationStatus.accepted = AuthorizationStatus.accepted /\ 0 < 0.
Proof.
  exact (proj1 (start_transaction_acceptance_rule (init "TAG") "TAG"
                  {| call_result.id_tag_info_status := AuthorizationStatus.accepted;
                     call_result.transaction_id := 0 |} true eq_refl)).
Defined.

(** One sample of the meter. *)
Lemma send_meter_values_run (increment_wh : Z) (st : state) :
  send_meter_values increment_wh st
  = (tt, set_energy_wh_counter (energy_wh_counter st + Z.max 1 increment_wh) st,
     [ Call_MeterValues (tx_id st) None
         (energy_wh_counter st + Z.max 1 increment_wh) ]).
Proof. destruct st; reflexivity. Qed.

(** The samples of a metering loop of any length increase, from above
    the register the loop starts with. *)
Lemma metering_loop_samples (n : nat) (st : state) :
  StronglySorted Z.lt (meter_samples (trace (metering_loop n st)))
  /\ Forall (Z.lt (energy_wh_counter st)) (meter_samples (trace (metering_loop n st))).
Proof.
  revert st. induction n as [|n IH]; intros st.
  - split; constructor.
  - destruct st as [c hb t e ch con cfg ar tag].
    destruct ch, con; try (split; constructor).
    specialize (IH (mk_state c hb t (e + Z.max 1 1280) true true cfg ar tag)).
    cbn [energy_wh_counter] in *.
    cbn [metering_loop]. run_g3.
    destruct (metering_loop n _) as [[u st'] tr]. cbn in *.
    destruct IH as [IH1 IH2]. split.
    + constructor; [exact IH1|]. exact IH2.
    + constructor; [lia|].
      eapply List.Forall_impl; [|exact IH2]. cbn. intros; lia.
Qed.

(** C9: every call of [send_meter_values] raises the energy register by
    [max(1, increment_wh)], which is at least 1 Wh whatever the
    increment, and sends the new value; so the samples of a metering loop
    of any length, and those of a session, increase strictly. *)
Theorem send_meter_values_strictly_increases :
  (forall (increment_wh : Z) (st : state),
     let r := send_meter_values increment_wh st in
     energy_wh_counter (final r) = energy_wh_counter st + Z.max 1 increment_wh
     /\ energy_wh_counter st + 1 <= energy_wh_counter (final r)
     /\ meter_samples (trace r) = [energy_wh_counter (final r)])
  /\ (forall (n : nat) (st : state),
       StronglySorted Z.lt (meter_samples (trace (metering_loop n st))))
  /\ (forall (cs : csms) (id_tag : string) (st : state),
       StronglySorted Z.lt (meter_samples (trace (start_session_flow cs id_tag st)))).
Proof.
  split; [|split].
  - intros inc st. cbv zeta. rewrite send_meter_values_run. cbn.
    destruct st; cbn. repeat split; lia.
  - intros n st. apply metering_loop_samples.
  - intros [reply stop_ok] id_tag st.
    destruct (charging st) eqn:Hc.
    { destruct st; simpl in Hc; subst. run_g3. constructor. }
    destruct reply as [resp|].
    + destruct (accepted resp) eqn:Ha.
      * rewrite (start_session_flow_accepted st id_tag resp stop_ok Hc Ha).
        destruct (connected st); cbn; repeat constructor; lia.
      * rewrite (start_session_flow_rejected st id_tag resp stop_ok Hc Ha).
        cbn. constructor.
    + destruct st as [c hb t e ch con cfg ar tag]; simpl in Hc; subst.
      destruct t as [t|]; [destruct (Z.ltb 0 t) eqn:Ht|];
        destruct con, stop_ok; run_g3; unfold tx_ok; cbn; rewrite ?Ht; cbn;
        repeat constructor; lia.
Qed.

End G3Session.

(** ** EVBoxG3Simulator: the configuration store *)

Section G3Config.

Import G3.

Lemma config_ensure (st : state) : config (_ensure_config st) = config st.
Proof.
  unfold _ensure_config, config.
  destruct st as [c hb t e ch con [m|] [a|] tag]; reflexivity.
Qed.

Lemma config_ok_dom (st : state) :
  config_ok st -> dom (config st) = dom default_config.
Proof.
  unfold config_ok, config. destruct (_config st); [auto | reflexivity].
Qed.

Lemma config_known (st : state) (k : string) :
  config_ok st -> is_Some (default_config !! k) -> is_Some (config st !! k).
Proof.
  intros Hok Hk. apply elem_of_dom. rewrite (config_ok_dom _ Hok).
  now apply elem_of_dom.
Qed.

Lemma config_unknown (st : state) (k : string) :
  config_ok st -> default_config !! k = None -> config st !! k = None.
Proof.
  intros Hok Hk. apply not_elem_of_dom. rewrite (config_ok_dom _ Hok).
  now apply not_elem_of_dom.
Qed.

Lemma config_store (k v : string) (st : state) :
  config (store k v st) = <[k := v]> (config st).
Proof. reflexivity. Qed.

Lemma config_set_authorize_required (b : option bool) (st : state) :
  config (set_authorize_required b st) = config st.
Proof. reflexivity. Qed.

(** The handler as a function of the store it finds. *)
Lemma on_change_configuration_run (key value : string) (st : state) :
  on_change_configuration key value st =
  let st1 := _ensure_config st in
  let b := _as_bool value in
  match config st1 !! key with
  | None => (ConfigurationStatus.not_supported, st1, [])
  | Some _ =>
      if String.eqb key "AuthorizeRequired" then
        (ConfigurationStatus.accepted,
         store "evb_SkipAuthorize" (if b then "0" else "1")
           (set_authorize_required (Some b)
              (store "AuthorizeRequired" (if b then "true" else "false") st1)),
         [])
      else if String.eqb key "evb_SkipAuthorize" then
        (ConfigurationStatus.accepted,
         set_authorize_required (Some (negb b))
           (store "AuthorizeRequired" (if b then "false" else "true")
              (store "evb_SkipAuthorize" (if b then "1" else "0") st1)),
         [])
      else if str_in key ["HeartbeatInterval"; "MeterValuesSampleInterval"] then
        if isdigit value then (ConfigurationStatus.accepted, store key value st1, [])
        else (ConfigurationStatus.rejected, st1, [])
      else (ConfigurationStatus.accepted, store key value st1, [])
  end.
Proof.
  unfold on_change_configuration, bind, modify, get, ret. cbv zeta.
  destruct (config (_ensure_config st) !! key); [|reflexivity].
  destruct (String.eqb key "AuthorizeRequired"); [reflexivity|].
  destruct (String.eqb key "evb_SkipAuthorize"); [reflexivity|].
  destruct (str_in key _); [|reflexivity].
  destruct (isdigit value); reflexivity.
Qed.

(** What a write to one of the two boolean keys of the store does. *)
Lemma write_AuthorizeRequired (value : string) (st : state) :
  config_ok st ->
  let b := _as_bool value in
  on_change_configuration "AuthorizeRequired" value st
  = (ConfigurationStatus.accepted,
     store "evb_SkipAuthorize" (if b then "0" else "1")
       (set_authorize_required (Some b)
          (store "AuthorizeRequired" (if b then "true" else "false")
             (_ensure_config st))),
     []).
Proof.
  intros Hok. rewrite on_change_configuration_run. cbv zeta.
  rewrite config_ensure.
  destruct (config_known st "AuthorizeRequired" Hok) as [v ->];
    [eexists; reflexivity | reflexivity].
Qed.

Lemma write_evb_SkipAuthorize (value : string) (st : state) :
  config_ok st ->
  let b := _as_bool value in
  on_change_configuration "evb_SkipAuthorize" value st
  = (ConfigurationStatus.accepted,
     set_authorize_required (Some (negb b))
       (store "AuthorizeRequired" (if b then "false" else "true")
          (store "evb_SkipAuthorize" (if b then "1" else "0")
             (_ensure_config st))),
     []).
Proof.
  intros Hok. rewrite on_change_configuration_run. cbv zeta.
  rewrite config_ensure.
  destruct (config_known st "evb_SkipAuthorize" Hok) as [v ->];
    [eexists; reflexivity | reflexivity].
Qed.

Lemma write_evb_AutoStart (value : string) (st : state) :
  config_ok st ->
  on_change_configuration "evb_AutoStart" value st
  = (ConfigurationStatus.not_supported, _ensure_config st, []).
Proof.
  intros Hok. rewrite on_change_configuration_run. cbv zeta.
  rewrite config_ensure.
  now rewrite (config_unknown st "evb_AutoStart" Hok).
Qed.

(** What a write to one of the two numeric keys of the store does. *)
Lemma write_numeric (key value : string) (st : state) :
  config_ok st ->
  key = "HeartbeatInterval" \/ key = "MeterValuesSampleInterval" ->
  on_change_configuration key value st
  = if isdigit value
    then (ConfigurationStatus.accepted, store key value (_ensure_config st), [])
    else (ConfigurationStatus.rejected, _ensure_config st, []).
Proof.
  intros Hok Hkey. rewrite on_change_configuration_run. cbv zeta.
  rewrite config_ensure.
  destruct Hkey as [-> | ->].
  - destruct (config_known st "HeartbeatInterval" Hok) as [v ->];
      [eexists; reflexivity | reflexivity].
  - destruct (config_known st "MeterValuesSampleInterval" Hok) as [v ->];
      [eexists; reflexivity | reflexivity].
Qed.

Lemma config_ok_init (id_tag : string) : config_ok (init id_tag).
Proof. exact I. Qed.

(** The store keeps its keys. *)
Lemma config_ok_preserved (key value : string) (st : state) :
  config_ok st -> config_ok (final (on_change_configuration key value st)).
Proof.
  intros Hok.
  assert (Hens : config_ok (_ensure_config st)).
  { unfold config_ok, _ensure_config in *.
    destruct st as [c hb t e ch con [m|] [a|] tag]; cbn in *; auto. }
  assert (Hst : forall k v, is_Some (config (_ensure_config st) !! k) ->
                config_ok (store k v (_ensure_config st))).
  { intros k v Hk. unfold config_ok. cbn.
    rewrite dom_insert_L, (config_ok_dom _ Hens).
    apply elem_of_dom in Hk. rewrite (config_ok_dom _ Hens) in Hk.
    apply set_eq. intros x. rewrite elem_of_union, elem_of_singleton.
    split; [|tauto]. intros [-> | Hx]; assumption. }
  destruct (decide (key = "AuthorizeRequired")) as [-> | H1].
  { rewrite write_AuthorizeRequired by assumption. cbv zeta. cbn.
    unfold config_ok. cbn. rewrite !dom_insert_L, (config_ok_dom _ Hens).
    apply set_eq. intros x. rewrite !elem_of_union, !elem_of_singleton.
    split; [|tauto]. intros [-> | [-> | H]]; [| |exact H];
      apply elem_of_dom; eexists; reflexivity. }
  destruct (decide (key = "evb_SkipAuthorize")) as [-> | H2].
  { rewrite write_evb_SkipAuthorize by assumption. cbv zeta. cbn.
    unfold config_ok. cbn. rewrite !dom_insert_L, (config_ok_dom _ Hens).
    apply set_eq. intros x. rewrite !elem_of_union, !elem_of_singleton.
    split; [|tauto]. intros [-> | [-> | H]]; [| |exact H];
      apply elem_of_dom; eexists; reflexivity. }
  rewrite on_change_configuration_run. cbv zeta.
  destruct (config (_ensure_config st) !! key) eqn:Hk; [|exact Hens].
  apply String.eqb_neq in H1, H2. rewrite H1, H2.
  destruct (str_in key _); [destruct (isdigit value)|]; cbn;
    try exact Hens; apply Hst; rewrite Hk; eauto.
Qed.

(** The store after a write to one of the two boolean keys. *)
Lemma write_AuthorizeRequired_lookups (value : string) (st : state) :
  config_ok st ->
  let st' := final (on_change_configuration "AuthorizeRequired" value st) in
  let b := _as_bool value in
  authorize_required st' = Some b
  /\ config st' !! "AuthorizeRequired" = Some (if b then "true" else "false")
  /\ config st' !! "evb_SkipAuthorize" = Some (if b then "0" else "1").
Proof.
  intros Hok. cbv zeta. rewrite write_AuthorizeRequired by assumption.
  cbv zeta. unfold final. cbn [fst snd].
  rewrite !config_store, config_set_authorize_required, config_store.
  split; [reflexivity|]. split.
  - rewrite lookup_insert_ne by discriminate. apply lookup_insert_eq.
  - apply lookup_insert_eq.
Qed.

Lemma write_evb_SkipAuthorize_lookups (value : string) (st : state) :
  config_ok st ->
  let st' := final (on_change_configuration "evb_SkipAuthorize" value st) in
  let b := _as_bool value in
  authorize_required st' = Some (negb b)
  /\ config st' !! "evb_SkipAuthorize" = Some (if b then "1" else "0")
  /\ config st' !! "AuthorizeRequired" = Some (if b then "false" else "true").
Proof.
  intros Hok. cbv zeta. rewrite write_evb_SkipAuthorize by assumption.
  cbv zeta. unfold final. cbn [fst snd].
  rewrite config_set_authorize_required, !config_store.
  split; [reflexivity|]. split.
  - rewrite lookup_insert_ne by discriminate. apply lookup_insert_eq.
  - apply lookup_insert_eq.
Qed.

(** C10: a write to [AuthorizeRequired] or to [evb_SkipAuthorize] is
    accepted whatever the value, and the value counts as true exactly
    when, stripped and in lower case, it is one of 1, true, yes, on. *)
Theorem boolean_alias_write_never_rejected (st : state) (key value : string) :
  config_ok st ->
  key = "AuthorizeRequired" \/ key = "evb_SkipAuthorize" ->
  let r := on_change_configuration key value st in
  let b := str_in (lower (strip value)) ["1"; "true"; "yes"; "on"] in
  result r = ConfigurationStatus.accepted
  /\ (key = "AuthorizeRequired" ->
       authorize_required (final r) = Some b
       /\ config (final r) !! "AuthorizeRequired" = Some (if b then "true" else "false")
       /\ config (final r) !! "evb_SkipAuthorize" = Some (if b then "0" else "1"))
  /\ (key = "evb_SkipAuthorize" ->
       authorize_required (final r) = Some (negb b)
       /\ config (final r) !! "evb_SkipAuthorize" = Some (if b then "1" else "0")
       /\ config (final r) !! "AuthorizeRequired" = Some (if b then "false" else "true")).
Proof.
  intros Hok Hkey. cbv zeta.
  change (str_in (lower (strip value)) ["1"; "true"; "yes"; "on"])
    with (_as_bool value).
  destruct Hkey as [-> | ->].
  - split; [now rewrite write_AuthorizeRequired|].
    split; [|discriminate]. intros _.
    now apply write_AuthorizeRequired_lookups.
  - split; [now rewrite write_evb_SkipAuthorize|].
    split; [discriminate|]. intros _.
    now apply write_evb_SkipAuthorize_lookups.
Qed.

Lemma boolean_alias_write_never_rejected_witness :
  result (on_change_configuration "AuthorizeRequired" " Off " (init "TAG"))
  = ConfigurationStatus.accepted.
Proof.
  exact (proj1 (boolean_alias_write_never_rejected (init "TAG")
                  "AuthorizeRequired" " Off " I
                  (or_introl eq_refl))).
Defined.

(** The values that count as true, and some that do not. *)
Example _as_bool_values :
  map _as_bool ["1"; "true"; " YES "; "On"; "0"; "off"; "no"; "false"; "garbage"; ""]
  = [true; true; true; true; false; false; false; false; false; false].
Proof. reflexivity. Qed.

End G3Config.

(** ** EVBoxG3Simulator: remote stop, boot and heartbeat *)

Section G3Remote.

Import G3.

Lemma tx_id_is_iff (st : state) (transaction_id : Z) :
  tx_id_is st transaction_id = true <-> tx_id st = Some transaction_id.
Proof.
  unfold tx_id_is. destruct (tx_id st) as [n|].
  - rewrite Z.eqb_eq. split; congruence.
  - split; discriminate.
Qed.

(** The reply to [RemoteStopTransaction] is Accepted exactly when the
    call names the transaction id the charge point holds; the stop then
    runs with the reason Remote, and a call that is rejected changes
    nothing and sends nothing. *)
Lemma g3_remote_stop_transaction (cs : csms) (transaction_id : Z) (st : state) :
  let r := on_remote_stop_transaction cs transaction_id st in
  (result r = RemoteStartStopStatus.Accepted <-> tx_id st = Some transaction_id)
  /\ (tx_id st = Some transaction_id -> charging st = true ->
      trace r =
        [ Call_StopTransaction (Some transaction_id) (gui_id_tag st)
            (energy_wh_counter st) "Remote";
          Call_StatusNotification (connector_id st) ChargePointStatus.available None;
          Call_DataTransfer_evbStatusNotification (connector_id st) "Available"
            "Green" 0 (energy_wh_counter st)
            (if stop_transaction_ok cs then 0 else or_Z transaction_id 0);
          Gui_update_charging_status Disponivel ]
      /\ charging (final r) = false)
  /\ (tx_id st <> Some transaction_id ->
      r = (RemoteStartStopStatus.Rejected, st, [])).
Proof.
  cbv zeta. pose proof (tx_id_is_iff st transaction_id) as Hiff.
  destruct st as [c hb t e ch con cfg ar tag]; cbn [tx_id charging gui_id_tag
    energy_wh_counter connector_id] in *.
  destruct cs as [reply stop_ok]; cbn [stop_transaction_ok].
  run_g3. destruct (tx_id_is _ transaction_id) eqn:Hm.
  - apply proj1 in Hiff. specialize (Hiff eq_refl). subst t.
    split; [|split].
    + destruct ch, stop_ok; cbn; tauto.
    + intros _ ->. destruct stop_ok; cbn; split; reflexivity.
    + congruence.
  - assert (Hne : t <> Some transaction_id).
    { intros H. apply Hiff in H. discriminate. }
    split; [|split].
    + cbn. split; [discriminate | tauto].
    + tauto.
    + reflexivity.
Qed.

(** One cycle of the heartbeat sleeps for the field [heartbeat_interval]. *)
Lemma _heartbeat_task_first_sleep (ok : bool) (rest : list bool) (st : state) :
  connected st = true ->
  first_sleep (trace (_heartbeat_task (ok :: rest) st))
  = Some (heartbeat_interval st).
Proof.
  intros Hcon. destruct st as [c hb t e ch con cfg ar tag]; simpl in Hcon; subst.
  cbn [_heartbeat_task]. unfold bind, get, emit, trace. cbn.
  destruct ok.
  - destruct (_heartbeat_task rest _) as [[u st'] tr]. reflexivity.
  - reflexivity.
Qed.

(** The handler of [ChangeConfiguration] leaves the field
    [heartbeat_interval] as it is. *)
Lemma on_change_configuration_heartbeat_interval (key value : string) (st : state) :
  heartbeat_interval (final (on_change_configuration key value st))
  = heartbeat_interval st
  /\ connected (final (on_change_configuration key value st)) = connected st.
Proof.
  rewrite on_change_configuration_run. cbv zeta.
  assert (He : heartbeat_interval (_ensure_config st) = heartbeat_interval st
               /\ connected (_ensure_config st) = connected st).
  { unfold _ensure_config.
    destruct st as [c hb t e ch con [m|] [a|] tag]; split; reflexivity. }
  destruct (config (_ensure_config st) !! key); [|exact He].
  destruct (String.eqb key "AuthorizeRequired"); [exact He|].
  destruct (String.eqb key "evb_SkipAuthorize"); [exact He|].
  destruct (str_in key _); [destruct (isdigit value)|]; exact He.
Qed.

(** C4 fails on EVBoxG3Simulator: the write of 45 to [HeartbeatInterval]
    is accepted and stored, and the next cycle of the heartbeat still
    sleeps for the 900 seconds of before. *)
Theorem g3_heartbeat_interval_write_not_applied :
  let r := on_change_configuration "HeartbeatInterval" "45" (init "TAG") in
  result r = ConfigurationStatus.accepted
  /\ config (final r) !! "HeartbeatInterval" = Some "45"
  /\ forall (ok : bool) (rest : list bool),
       first_sleep (trace (_heartbeat_task (ok :: rest) (final r))) = Some 900.
Proof.
  cbv zeta. split; [|split].
  - rewrite (write_numeric "HeartbeatInterval" "45" (init "TAG")
               (config_ok_init "TAG") (or_introl eq_refl)).
    reflexivity.
  - rewrite (write_numeric "HeartbeatInterval" "45" (init "TAG")
               (config_ok_init "TAG") (or_introl eq_refl)).
    change (isdigit "45") with true. unfold final. cbn [fst snd].
    rewrite config_store. apply lookup_insert_eq.
  - intros ok rest.
    destruct (on_change_configuration_heartbeat_interval "HeartbeatInterval"
                "45" (init "TAG")) as [Hhb Hcon].
    rewrite _heartbeat_task_first_sleep by (rewrite Hcon; reflexivity).
    now rewrite Hhb.
Qed.

End G3Remote.

(** ** EVBoxMock *)

Section MockFacts.

Import Mock.

(** The handler of [RemoteStopTransaction] of EVBoxMock: Accepted exactly
    for the id of the transaction that is charging, and then it only
    clears [charging]; a call that is rejected changes nothing. *)
Lemma mock_remote_stop_transaction (tx : Z) (st : state) :
  let r := on_remote_stop_transaction tx st in
  (result r = RemoteStartStopStatus.Accepted
   <-> charging st = true /\ transaction_id st = Some tx)
  /\ (result r = RemoteStartStopStatus.Accepted ->
      r = (RemoteStartStopStatus.Accepted, set_charging false st, []))
  /\ (result r = RemoteStartStopStatus.Rejected ->
      r = (RemoteStartStopStatus.Rejected, st, [])).
Proof.
  cbv zeta. unfold on_remote_stop_transaction, transaction_id_is, bind, get,
    modify, ret, result.
  destruct st as [con s c tag [t|] ch m ms hb mv ar]; cbn;
    destruct ch; cbn; try (intuition congruence).
  destruct (Z.eqb_spec t tx); cbn; intuition congruence.
Qed.

(** Once [charging] is cleared, what is left of the charging sequence
    sends nothing and keeps the transaction id. *)
Lemma charging_sequence_from_not_charging (cs : csms) (remaining : list Z)
    (st : state) :
  charging st = false ->
  charging_sequence_from cs remaining st = (tt, st, []).
Proof.
  intros Hc. destruct st as [con s c tag t ch m ms hb mv ar]; simpl in Hc; subst.
  unfold charging_sequence_from, bind, get, modify, when, ret.
  destruct remaining; reflexivity.
Qed.

(** C6 fails on EVBoxMock: a [RemoteStopTransaction] for the transaction
    that is charging is answered Accepted, but the handler sends no
    [StopTransaction], and neither does what is left of the charging
    sequence; the transaction id stays. *)
Theorem mock_remote_stop_sends_no_stop_transaction (cs : csms)
    (remaining : list Z) (tx : Z) (st : state) :
  charging st = true -> transaction_id st = Some tx ->
  let r := on_remote_stop_transaction tx st in
  let r' := charging_sequence_from cs remaining (final r) in
  result r = RemoteStartStopStatus.Accepted
  /\ List.filter is_StopTransaction (trace r ++ trace r') = []
  /\ transaction_id (final r') = Some tx.
Proof.
  intros Hc Ht. cbv zeta.
  destruct (mock_remote_stop_transaction tx st) as (Hiff & Hacc & _).
  assert (Hres : result (on_remote_stop_transaction tx st)
                 = RemoteStartStopStatus.Accepted) by (apply Hiff; auto).
  rewrite (Hacc Hres). unfold final, trace, result. cbn [fst snd].
  rewrite charging_sequence_from_not_charging
    by (destruct st; reflexivity).
  cbn. split; [reflexivity|]. split; [reflexivity|].
  destruct st; exact Ht.
Qed.

Lemma mock_remote_stop_sends_no_stop_transaction_witness :
  List.filter is_StopTransaction
    (trace (on_remote_stop_transaction 77
              (set_transaction_id (Some 77) (set_charging true init)))
     ++ trace (charging_sequence_from
                 {| authorize_reply := Some AuthorizationStatus.accepted;
                    start_transaction_reply := Some 77;
                    meter_values_ok := fun _ => true;
                    stop_transaction_ok := true |}
                 [4; 5; 6; 7; 8; 9; 10]
                 (final (on_remote_stop_transaction 77
                           (set_transaction_id (Some 77)
                              (set_charging true init)))))) = [].
Proof.
  exact (proj1 (proj2 (mock_remote_stop_sends_no_stop_transaction
    {| authorize_reply := Some AuthorizationStatus.accepted;
       start_transaction_reply := Some 77;
       meter_values_ok := fun _ => true;
       stop_transaction_ok := true |}
    [4; 5; 6; 7; 8; 9; 10] 77
    (set_transaction_id (Some 77) (set_charging true init))
    eq_refl eq_refl))).
Defined.

(** The handler of [ChangeConfiguration] of EVBoxMock, key by key. *)
Lemma mock_write_AuthorizeRequired (value : string) (st : state) :
  on_change_configuration "AuthorizeRequired" value st
  = (ConfigurationStatus.accepted,
     set_authorize_required (String.eqb (lower value) "true") st,
     [Gui_update_autostart_status (negb (String.eqb (lower value) "true"))]).
Proof. destruct st; reflexivity. Qed.

Lemma mock_write_evb_AutoStart (value : string) (st : state) :
  on_change_configuration "evb_AutoStart" value st
  = (ConfigurationStatus.accepted,
     set_authorize_required (negb (str_in value ["1"; "true"; "yes"])) st,
     [Gui_update_autostart_status (str_in value ["1"; "true"; "yes"])]).
Proof. destruct st; reflexivity. Qed.

Lemma mock_write_HeartbeatInterval (value : string) (st : state) :
  on_change_configuration "HeartbeatInterval" value st
  = match py_int value with
    | Some n => (ConfigurationStatus.accepted, set_heartbeat_interval n st, [])
    | None => (ConfigurationStatus.rejected, st, [])
    end.
Proof.
  unfold on_change_configuration. cbn [String.eqb Ascii.eqb Bool.eqb].
  destruct (py_int value); destruct st; reflexivity.
Qed.

Lemma mock_write_MeterValuesSampleInterval (value : string) (st : state) :
  on_change_configuration "MeterValuesSampleInterval" value st
  = match py_int value with
    | Some n => (ConfigurationStatus.accepted,
                 set_meter_values_interval (Z.max 1 n) st, [])
    | None => (ConfigurationStatus.rejected, st, [])
    end.
Proof.
  unfold on_change_configuration. cbn [String.eqb Ascii.eqb Bool.eqb].
  destruct (py_int value); destruct st; reflexivity.
Qed.

Lemma mock_write_evb_SkipAuthorize (value : string) (st : state) :
  on_change_configuration "evb_SkipAuthorize" value st
  = (ConfigurationStatus.not_supported, st, []).
Proof. reflexivity. Qed.

(** The two flags that [GetConfiguration] reports are computed from the
    one field [authorize_required]. *)
Lemma mock_store_flags (st : state) :
  store_lookup st "AuthorizeRequired"
    = Some (if authorize_required st then "true" else "false")
  /\ store_lookup st "evb_AutoStart"
    = Some (if authorize_required st then "0" else "1")
  /\ store_lookup st "evb_SkipAuthorize" = None.
Proof. repeat split. Qed.

Lemma mock_flags_inverse (st : state) :
  flags_inverse (store_lookup st) "AuthorizeRequired" "evb_AutoStart".
Proof.
  destruct (mock_store_flags st) as (Ha & Hb & _).
  exists (if authorize_required st then "true" else "false"),
         (if authorize_required st then "0" else "1").
  split; [exact Ha|]. split; [exact Hb|].
  destruct (authorize_required st); reflexivity.
Qed.

(** One cycle of the heartbeat of EVBoxMock sleeps for the field
    [heartbeat_interval]. *)
Lemma periodic_heartbeat_first_sleep (ok : bool) (rest : list bool) (st : state) :
  connected st = true ->
  first_sleep (trace (periodic_heartbeat (ok :: rest) st))
  = Some (heartbeat_interval st).
Proof.
  intros Hcon. destruct st as [con s c tag t ch m ms hb mv ar];
    simpl in Hcon; subst.
  cbn [periodic_heartbeat]. unfold bind, get, emit, when, modify, ret, trace.
  cbn. destruct ok; cbn;
    destruct (periodic_heartbeat rest _) as [[u st'] tr]; reflexivity.
Qed.

(** On EVBoxMock an accepted write of [HeartbeatInterval] is what the
    next cycle of the heartbeat sleeps for. *)
Lemma mock_heartbeat_interval_write_applied (ok : bool) (rest : list bool) :
  let r := on_change_configuration "HeartbeatInterval" "45" init in
  result r = ConfigurationStatus.accepted
  /\ first_sleep (trace (periodic_heartbeat (ok :: rest) (final r))) = Some 45.
Proof.
  cbv zeta. rewrite mock_write_HeartbeatInterval.
  change (py_int "45") with (Some 45). split; [reflexivity|].
  unfold final. cbn [fst snd].
  now rewrite periodic_heartbeat_first_sleep.
Qed.

End MockFacts.

(** ** Properties of both simulators *)

Section BothSimulators.

(** C7: when the status of the reply to [BootNotification] is not
    Accepted, [start] clears [connected], and the only task it has
    created is the listener, created before the call: neither the
    heartbeat nor any other periodic task is started.  This holds for
    EVBoxG3Simulator and for EVBoxMock. *)
Theorem boot_rejected_starts_no_task (resp : call_result.BootNotification)
    (g : G3.state) (m : Mock.state) :
  call_result.status resp <> RegistrationStatus.accepted ->
  let rg := G3.start (Some resp) g in
  let rm := Mock.start (Some resp) m in
  G3.connected (final rg) = false
  /\ trace rg = [Create_task Task_listener; Call_BootNotification]
  /\ Mock.connected (final rm) = false
  /\ trace rm = [Create_task Task_listener; Call_BootNotification].
Proof.
  intros Hne. cbv zeta. destruct resp as [s i], g, m. cbn in Hne.
  destruct s; try congruence; repeat split.
Qed.

Lemma boot_rejected_starts_no_task_witness :
  G3.connected
    (final (G3.start (Some {| call_result.status := RegistrationStatus.rejected;
                              call_result.interval := 300 |})
              (G3.init "TAG"))) = false.
Proof.
  exact (proj1 (boot_rejected_starts_no_task
                  {| call_result.status := RegistrationStatus.rejected;
                     call_result.interval := 300 |}
                  (G3.init "TAG") Mock.init
                  ltac:(discriminate))).
Defined.

(** A boot that is accepted starts the heartbeat. *)
Lemma boot_accepted_starts_heartbeat (i : Z) (g : G3.state) (m : Mock.state) :
  let resp := {| call_result.status := RegistrationStatus.accepted;
                 call_result.interval := i |} in
  In (Create_task Task_heartbeat) (trace (G3.start (Some resp) g))
  /\ In (Create_task Task_heartbeat) (trace (Mock.start (Some resp) m))
  /\ G3.heartbeat_interval (final (G3.start (Some resp) g)) = or_Z i 900.
Proof. destruct g, m. cbn. auto 10. Qed.

(** C2, as amended.  On EVBoxG3Simulator a write to [AuthorizeRequired]
    or to [evb_SkipAuthorize] is accepted and leaves the two inverse of
    each other in the store; [evb_AutoStart] is not a key of that store,
    and a write to it is answered NotSupported.  On EVBoxMock a write to
    [AuthorizeRequired] or to [evb_AutoStart] is accepted and leaves the
    two inverse of each other in the configuration it reports;
    [evb_SkipAuthorize] is not a key there, and a write to it is answered
    NotSupported. *)
Theorem authorize_flags_stay_inverse (g : G3.state) (m : Mock.state)
    (key value : string) :
  G3.config_ok g ->
  key = "AuthorizeRequired" \/ key = "evb_SkipAuthorize" \/ key = "evb_AutoStart" ->
  let rg := G3.on_change_configuration key value g in
  let rm := Mock.on_change_configuration key value m in
  ((result rg = ConfigurationStatus.accepted /\ key <> "evb_AutoStart"
    \/ result rg = ConfigurationStatus.not_supported /\ key = "evb_AutoStart")
   /\ (result rg = ConfigurationStatus.accepted ->
       flags_inverse (fun k => G3.config (final rg) !! k)
         "AuthorizeRequired" "evb_SkipAuthorize")
   /\ G3.config (final rg) !! "evb_AutoStart" = None)
  /\
  ((result rm = ConfigurationStatus.accepted /\ key <> "evb_SkipAuthorize"
    \/ result rm = ConfigurationStatus.not_supported /\ key = "evb_SkipAuthorize")
   /\ (result rm = ConfigurationStatus.accepted ->
       flags_inverse (Mock.store_lookup (final rm))
         "AuthorizeRequired" "evb_AutoStart")
   /\ Mock.store_lookup (final rm) "evb_SkipAuthorize" = None).
Proof.
  intros Hok Hkey. cbv zeta. split.
  - pose proof (config_ok_preserved key value g Hok) as Hok'.
    split; [|split].
    + destruct Hkey as [-> | [-> | ->]].
      * left. rewrite write_AuthorizeRequired by assumption.
        split; [reflexivity | discriminate].
      * left. rewrite write_evb_SkipAuthorize by assumption.
        split; [reflexivity | discriminate].
      * right. rewrite write_evb_AutoStart by assumption.
        split; reflexivity.
    + destruct Hkey as [-> | [-> | ->]].
      * intros _.
        destruct (write_AuthorizeRequired_lookups value g Hok) as (_ & Ha & Hb).
        eexists _, _. split; [exact Ha|]. split; [exact Hb|].
        destruct (G3._as_bool value); reflexivity.
      * intros _.
        destruct (write_evb_SkipAuthorize_lookups value g Hok) as (_ & Hb & Ha).
        eexists _, _. split; [exact Ha|]. split; [exact Hb|].
        destruct (G3._as_bool value); reflexivity.
      * rewrite write_evb_AutoStart by assumption. discriminate.
    + apply config_unknown; [exact Hok' | reflexivity].
  - split; [|split].
    + destruct Hkey as [-> | [-> | ->]].
      * left. rewrite mock_write_AuthorizeRequired.
        split; [reflexivity | discriminate].
      * right. rewrite mock_write_evb_SkipAuthorize. split; reflexivity.
      * left. rewrite mock_write_evb_AutoStart.
        split; [reflexivity | discriminate].
    + intros _. apply mock_flags_inverse.
    + apply mock_store_flags.
Qed.

Lemma authorize_flags_stay_inverse_witness :
  flags_inverse
    (fun k => G3.config (final (G3.on_change_configuration "evb_SkipAuthorize"
                                  "yes" (G3.init "TAG"))) !! k)
    "AuthorizeRequired" "evb_SkipAuthorize".
Proof.
  apply (proj1 (authorize_flags_stay_inverse (G3.init "TAG") Mock.init
                  "evb_SkipAuthorize" "yes" I (or_intror (or_introl eq_refl)))).
  reflexivity.
Defined.

(** C2, as stated, fails: after an accepted write to [AuthorizeRequired]
    the store of EVBoxG3Simulator has no [evb_AutoStart] to compare with,
    and the configuration of EVBoxMock has no [evb_SkipAuthorize]; in
    neither do the two equations hold together. *)
Lemma authorize_flags_stay_inverse_counterexample :
  let rg := G3.on_change_configuration "AuthorizeRequired" "false" (G3.init "TAG") in
  let rm := Mock.on_change_configuration "AuthorizeRequired" "false" Mock.init in
  (result rg = ConfigurationStatus.accepted
   /\ ~ flags_inverse (fun k => G3.config (final rg) !! k)
          "AuthorizeRequired" "evb_AutoStart")
  /\ (result rm = ConfigurationStatus.accepted
      /\ ~ flags_inverse (Mock.store_lookup (final rm))
             "AuthorizeRequired" "evb_SkipAuthorize").
Proof.
  cbv zeta. split; split.
  - vm_compute. reflexivity.
  - intros (a & b & _ & Hb & _). vm_compute in Hb. discriminate.
  - reflexivity.
  - intros (a & b & _ & Hb & _). vm_compute in Hb. discriminate.
Qed.

(** C3, as amended.  On EVBoxG3Simulator a write to [HeartbeatInterval]
    or to [MeterValuesSampleInterval] is rejected, the store unchanged,
    when the value is not a string of one or more decimal digits, and is
    otherwise accepted and stored as it is written.  On EVBoxMock the
    write is rejected, nothing changed, when [int] cannot read the value;
    a string of digits written to [HeartbeatInterval] is accepted and
    stored as its number; and a value that [int] reads as [n], written
    to [MeterValuesSampleInterval], is accepted and stored as
    [max(1, n)]. *)
Theorem numeric_key_write (g : G3.state) (m : Mock.state) (key value : string) :
  G3.config_ok g ->
  key = "HeartbeatInterval" \/ key = "MeterValuesSampleInterval" ->
  let rg := G3.on_change_configuration key value g in
  let rm := Mock.on_change_configuration key value m in
  ((isdigit value = false ->
    result rg = ConfigurationStatus.rejected
    /\ G3.config (final rg) = G3.config g)
   /\ (isdigit value = true ->
       result rg = ConfigurationStatus.accepted
       /\ G3.config (final rg) !! key = Some value))
  /\
  ((py_int value = None ->
    result rm = ConfigurationStatus.rejected /\ final rm = m)
   /\ (isdigit value = true -> key = "HeartbeatInterval" ->
       exists n, py_int value = Some n /\ 0 <= n
                 /\ result rm = ConfigurationStatus.accepted
                 /\ Mock.heartbeat_interval (final rm) = n)
   /\ (forall n, py_int value = Some n -> key = "MeterValuesSampleInterval" ->
       result rm = ConfigurationStatus.accepted
       /\ Mock.meter_values_interval (final rm) = Z.max 1 n)).
Proof.
  intros Hok Hkey. cbv zeta. split.
  - rewrite (write_numeric key value g Hok Hkey).
    split; intros Hd; rewrite Hd; (split; [reflexivity|]).
    + apply config_ensure.
    + unfold final. cbn [fst snd]. rewrite config_store.
      apply lookup_insert_eq.
  - split; [|split].
    + intros Hnone.
      destruct Hkey as [-> | ->];
        [rewrite mock_write_HeartbeatInterval
        |rewrite mock_write_MeterValuesSampleInterval];
        rewrite Hnone; split; reflexivity.
    + intros Hd ->. destruct (py_int_isdigit value Hd) as (n & Hn & Hpos).
      exists n. rewrite mock_write_HeartbeatInterval, Hn.
      split; [reflexivity|]. split; [assumption|]. split; [reflexivity|].
      destruct m; reflexivity.
    + intros n Hn ->. rewrite mock_write_MeterValuesSampleInterval, Hn.
      split; [reflexivity|]. destruct m; reflexivity.
Qed.

Lemma numeric_key_write_witness :
  result (G3.on_change_configuration "HeartbeatInterval" "abc" (G3.init "TAG"))
  = ConfigurationStatus.rejected
  /\ G3.config (final (G3.on_change_configuration "HeartbeatInterval" "abc"
                         (G3.init "TAG")))
     = G3.config (G3.init "TAG").
Proof.
  apply (proj1 (proj1 (numeric_key_write (G3.init "TAG") Mock.init
                         "HeartbeatInterval" "abc" I (or_introl eq_refl)))).
  reflexivity.
Defined.

(** C3, as stated, fails on EVBoxMock: written to
    [MeterValuesSampleInterval], the value 0 is accepted but 1 is stored,
    and the value -5, which is no integer that is not negative, is
    accepted too, and again 1 is stored. *)
Lemma numeric_key_write_counterexample :
  let r0 := Mock.on_change_configuration "MeterValuesSampleInterval" "0" Mock.init in
  let r5 := Mock.on_change_configuration "MeterValuesSampleInterval" "-5" Mock.init in
  (result r0 = ConfigurationStatus.accepted
   /\ Mock.store_lookup (final r0) "MeterValuesSampleInterval" = Some "1")
  /\ (isdigit "-5" = false
      /\ result r5 = ConfigurationStatus.accepted
      /\ Mock.store_lookup (final r5) "MeterValuesSampleInterval" = Some "1"
      /\ final r5 <> Mock.init).
Proof. cbv zeta. repeat split; vm_compute; discriminate. Qed.

(** A value that [int] cannot read for the separator before its digits
    is rejected by EVBoxMock, and by EVBoxG3Simulator too, for which it
    is no string of digits. *)
Remark numeric_write_after_separator_rejected :
  Forall (fun key =>
            Mock.on_change_configuration key (String "028" "12") Mock.init
            = (ConfigurationStatus.rejected, Mock.init, [])
            /\ result (G3.on_change_configuration key (String "028" "12")
                         (G3.init "TAG"))
               = ConfigurationStatus.rejected)
         ["HeartbeatInterval"; "MeterValuesSampleInterval"].
Proof. repeat constructor. Qed.

(** The same write with a negative value to [HeartbeatInterval]: EVBoxMock
    accepts it and its heartbeat then sleeps for a negative time, where
    EVBoxG3Simulator rejects it. *)
Remark mock_heartbeat_interval_negative :
  Mock.on_change_configuration "HeartbeatInterval" "-5" Mock.init
  = (ConfigurationStatus.accepted, Mock.set_heartbeat_interval (-5) Mock.init, [])
  /\ result (G3.on_change_configuration "HeartbeatInterval" "-5" (G3.init "TAG"))
     = ConfigurationStatus.rejected.
Proof. split; reflexivity. Qed.

End BothSimulators.

(** ** EVBoxG3Simulator: more on the session *)

(** The test of [send_start_transaction], status by status. *)
Lemma g3_accepted_by_status (resp : call_result.StartTransaction) :
  G3.accepted resp
  = match call_result.id_tag_info_status resp with
    | AuthorizationStatus.accepted => Z.ltb 0 (call_result.transaction_id resp)
    | _ => false
    end.
Proof. destruct resp as [s tx]; destruct s; reflexivity. Qed.

(** Runs [start_session_flow] by cases on the reply of the CSMS, on the
    transaction id held and on the flags of the charge point. *)
Ltac g3_session_cases st cs :=
  let c := fresh "c" in let hb := fresh "hb" in let t := fresh "t" in
  let e := fresh "e" in let ch := fresh "ch" in let con := fresh "con" in
  let cfg := fresh "cfg" in let ar := fresh "ar" in let tag := fresh "tag" in
  let s := fresh "s" in let tx := fresh "tx" in let ok := fresh "stop_ok" in
  destruct st as [c hb t e ch con cfg ar tag];
  destruct cs as [[[s tx]|] ok];
  [ destruct s; destruct (Z.ltb 0 tx) eqn:?; destruct (Z.eqb tx 0) eqn:?
  | destruct t as [t|];
    [destruct (Z.ltb 0 t) eqn:?; destruct (Z.eqb t 0) eqn:?|] ];
  destruct ch, con, ok;
  cbv [G3.start_session_flow G3.send_start_transaction G3.send_status
       G3.send_evb_datatransfer G3.send_stop_transaction G3.send_meter_values
       G3.tx_ok G3.tx_id_or_0 or_Z
       bind ret get modify emit when result final trace];
  cbn; rewrite ?g3_accepted_by_status; cbn;
  repeat match goal with
         | H : Z.ltb 0 ?x = _ |- context [Z.ltb 0 ?x] => rewrite H; cbn
         | H : Z.eqb ?x 0 = _ |- context [Z.eqb ?x 0] => rewrite H; cbn
         end.

Section G3SessionMore.

Import G3.

(** X1: a session asked for while one is charging does nothing at all.
    A session begun idle ends idle whatever the CSMS answers, sends
    exactly one [StartTransaction], carrying the energy register as its
    meter start, never lowers the register and leaves [connected] as it
    finds it. *)
Theorem g3_session_flow_begins_and_ends_idle (cs : csms) (id_tag : string)
    (st : state) :
  let r := start_session_flow cs id_tag st in
  (charging st = true -> r = (tt, st, []))
  /\ (charging st = false ->
      charging (final r) = false
      /\ List.filter is_StartTransaction (trace r)
         = [Call_StartTransaction (connector_id st) id_tag (energy_wh_counter st)]
      /\ connected (final r) = connected st
      /\ energy_wh_counter st <= energy_wh_counter (final r)).
Proof.
  cbv zeta. split; intros Hc.
  - destruct st; simpl in Hc; subst. reflexivity.
  - g3_session_cases st cs; simpl in Hc; try discriminate Hc;
      repeat split; lia.
Qed.

(** X2: when the call of [StartTransaction] raises, the transaction id
    the charge point held before is left in place, and the session then
    announces Charging exactly when that old id is positive; its meter
    samples are then sent under the old id.  With no id held the session
    sends no sample and ends without an id. *)
Theorem g3_start_call_raises_keeps_transaction_id (cs : csms) (id_tag : string)
    (st : state) :
  charging st = false ->
  start_transaction_reply cs = None ->
  let r := start_session_flow cs id_tag st in
  let e := energy_wh_counter st in
  (enters_charging (trace r) = true <-> exists n, tx_id st = Some n /\ 0 < n)
  /\ (forall n, tx_id st = Some n -> 0 < n -> connected st = true ->
      List.filter is_MeterValues (trace r)
      = [ Call_MeterValues (Some n) None (e + 1280);
          Call_MeterValues (Some n) None (e + 1280 + 1280);
          Call_MeterValues (Some n) None (e + 1280 + 1280 + 1280) ])
  /\ (tx_id st = None ->
      List.filter is_MeterValues (trace r) = [] /\ tx_id (final r) = None).
Proof.
  intros Hc Hr. cbv zeta.
  g3_session_cases st cs; simpl in Hc, Hr; try discriminate;
    repeat match goal with
           | H : Z.ltb 0 _ = true |- _ => apply Z.ltb_lt in H
           | H : Z.ltb 0 _ = false |- _ => apply Z.ltb_ge in H
           | H : Z.eqb _ 0 = true |- _ => apply Z.eqb_eq in H
           | H : Z.eqb _ 0 = false |- _ => apply Z.eqb_neq in H
           end;
    cbn [tx_id energy_wh_counter connected];
    (split; [split|split]).
  all: try (intros He; first [discriminate He
                             | eexists; split; [reflexivity | lia]]).
  all: try (intros (n & Hn & Hpos);
            first [reflexivity
                  | exfalso; first [discriminate Hn | injection Hn as <-; lia]]).
  all: try (intros n Hn Hpos Hcon;
            first [discriminate Hn | discriminate Hcon
                  | injection Hn as <-; first [reflexivity | exfalso; lia]]).
  all: intros Hn; first [discriminate Hn | split; reflexivity].
Qed.

Lemma g3_start_call_raises_keeps_transaction_id_witness :
  enters_charging
    (trace (start_session_flow
              {| start_transaction_reply := None; stop_transaction_ok := true |}
              "TAG" (set_tx_id (Some 77) (init "TAG")))) = true
  <-> exists n, Some 77 = Some n /\ 0 < n.
Proof.
  exact (proj1 (g3_start_call_raises_keeps_transaction_id
                  {| start_transaction_reply := None; stop_transaction_ok := true |}
                  "TAG" (set_tx_id (Some 77) (init "TAG")) eq_refl eq_refl)).
Defined.

(** X3: in a session that the CSMS accepts, on a live connection, the
    three samples and the [StopTransaction] carry the transaction id of
    the reply; the meter stop is the meter start plus the three
    increments of 1280 Wh, and so is the register afterwards.  The id is
    dropped at the end exactly when the call of [StopTransaction]
    returns. *)
Theorem g3_session_energy_accounting (cs : csms) (id_tag : string) (st : state)
    (resp : call_result.StartTransaction) :
  charging st = false -> connected st = true ->
  start_transaction_reply cs = Some resp -> accepted resp = true ->
  let r := start_session_flow cs id_tag st in
  let e := energy_wh_counter st in
  let tx := call_result.transaction_id resp in
  List.filter is_MeterValues (trace r)
  = [ Call_MeterValues (Some tx) None (e + 1280);
      Call_MeterValues (Some tx) None (e + 1280 + 1280);
      Call_MeterValues (Some tx) None (e + 1280 + 1280 + 1280) ]
  /\ List.filter is_StopTransaction (trace r)
     = [ Call_StopTransaction (Some tx) (gui_id_tag st)
           (e + 1280 + 1280 + 1280) "Local" ]
  /\ energy_wh_counter (final r) = e + 3840
  /\ tx_id (final r) = (if stop_transaction_ok cs then None else Some tx).
Proof.
  intros Hc Hcon Hr Ha. cbv zeta. rewrite g3_accepted_by_status in Ha.
  g3_session_cases st cs; simpl in Hc, Hcon, Hr; try discriminate;
    injection Hr as <-; simpl in Ha; try discriminate; try congruence;
    repeat split; lia.
Qed.

Lemma g3_session_energy_accounting_witness :
  energy_wh_counter
    (final (start_session_flow
              {| start_transaction_reply :=
                   Some {| call_result.id_tag_info_status := AuthorizationStatus.accepted;
                           call_result.transaction_id := 77 |};
                 stop_transaction_ok := true |} "TAG" (init "TAG")))
  = 11905680 + 3840.
Proof.
  exact (proj1 (proj2 (proj2 (g3_session_energy_accounting
    {| start_transaction_reply :=
         Some {| call_result.id_tag_info_status := AuthorizationStatus.accepted;
                 call_result.transaction_id := 77 |};
       stop_transaction_ok := true |} "TAG" (init "TAG")
    {| call_result.id_tag_info_status := AuthorizationStatus.accepted;
       call_result.transaction_id := 77 |}
    eq_refl eq_refl eq_refl eq_refl)))).
Defined.

(** X4: [stop_session] on a charging session sends one
    [StopTransaction], with the id held, the register and the reason
    given, then announces Available; a second [stop_session] after it,
    or one without a session, sends nothing and changes nothing. *)
Theorem g3_stop_session_once (cs cs' : csms) (reason reason' : string)
    (st : state) :
  let r := stop_session cs reason st in
  (charging st = false -> r = (tt, st, []))
  /\ (charging st = true ->
      trace r
      = [ Call_StopTransaction (tx_id st) (gui_id_tag st) (energy_wh_counter st)
            reason;
          Call_StatusNotification (connector_id st) ChargePointStatus.available None;
          Call_DataTransfer_evbStatusNotification (connector_id st) "Available"
            "Green" 0 (energy_wh_counter st)
            (if stop_transaction_ok cs then 0 else tx_id_or_0 st);
          Gui_update_charging_status Disponivel ]
      /\ tx_id (final r) = (if stop_transaction_ok cs then None else tx_id st)
      /\ energy_wh_counter (final r) = energy_wh_counter st)
  /\ stop_session cs' reason' (final r) = (tt, final r, []).
Proof.
  cbv zeta.
  destruct st as [c hb t e ch con cfg ar tag], cs as [rep ok], cs' as [rep' ok'].
  destruct ch, ok; run_g3; repeat split; discriminate.
Qed.

(** X5: a [RemoteStopTransaction] that names the transaction id held
    while no session is charging (the id of a session that is not yet
    charging, or one left by a [StopTransaction] that failed) is
    answered Accepted, and yet nothing is sent and nothing changes. *)
Theorem g3_remote_stop_accepted_without_session (cs : csms) (transaction_id : Z)
    (st : state) :
  tx_id st = Some transaction_id -> charging st = false ->
  on_remote_stop_transaction cs transaction_id st
  = (RemoteStartStopStatus.Accepted, st, []).
Proof.
  intros Ht Hc. destruct st as [c hb t e ch con cfg ar tag]; simpl in Ht, Hc.
  subst. unfold on_remote_stop_transaction, tx_id_is, bind, get. cbn.
  rewrite Z.eqb_refl. reflexivity.
Qed.

Lemma g3_remote_stop_accepted_without_session_witness :
  on_remote_stop_transaction
    {| start_transaction_reply := None; stop_transaction_ok := true |} 77
    (set_tx_id (Some 77) (init "TAG"))
  = (RemoteStartStopStatus.Accepted, set_tx_id (Some 77) (init "TAG"), []).
Proof.
  exact (g3_remote_stop_accepted_without_session
           {| start_transaction_reply := None; stop_transaction_ok := true |} 77
           (set_tx_id (Some 77) (init "TAG")) eq_refl eq_refl).
Defined.

(** X6: EVBoxG3Simulator never calls [Authorize]: whatever the store
    says about [AuthorizeRequired], no run of a session, of a stop or of
    a remote stop sends it. *)
Theorem g3_never_sends_authorize (cs : csms) (id_tag reason : string)
    (transaction_id : Z) (st : state) :
  List.filter is_Authorize (trace (start_session_flow cs id_tag st)) = []
  /\ List.filter is_Authorize (trace (stop_session cs reason st)) = []
  /\ List.filter is_Authorize
       (trace (on_remote_stop_transaction cs transaction_id st)) = [].
Proof.
  split; [|split].
  - g3_session_cases st cs; reflexivity.
  - destruct st as [c hb t e ch con cfg ar tag], cs as [rep ok].
    destruct ch, ok; reflexivity.
  - destruct st as [c hb t e ch con cfg ar tag], cs as [rep ok].
    unfold on_remote_stop_transaction, bind, get, trace. cbn.
    destruct (tx_id_is _ _); destruct ch, ok; reflexivity.
Qed.

(** A session leaves [connected] as it finds it. *)
Lemma g3_session_flow_connected (cs : csms) (id_tag : string) (st : state) :
  connected (final (start_session_flow cs id_tag st)) = connected st.
Proof. g3_session_cases st cs; reflexivity. Qed.

End G3SessionMore.

(** ** Connection: boot, heartbeat, reconnection *)

Section Connection.

Lemma g3_ensure_config_fields (st : G3.state) :
  G3.connected (G3._ensure_config st) = G3.connected st
  /\ G3.charging (G3._ensure_config st) = G3.charging st
  /\ G3.tx_id (G3._ensure_config st) = G3.tx_id st
  /\ G3.energy_wh_counter (G3._ensure_config st) = G3.energy_wh_counter st.
Proof.
  unfold G3._ensure_config.
  destruct st as [c hb t e ch con [m|] [a|] tag]; repeat split.
Qed.

(** X7: nothing in EVBoxG3Simulator sets [connected] again once it is
    cleared: the boot, the heartbeat, a session, a stop, a remote stop
    and the configuration handlers all leave it cleared, and the
    heartbeat then sends nothing. *)
Theorem g3_connected_is_never_restored (st : G3.state) (cs : G3.csms)
    (boot : option call_result.BootNotification) (replies : list bool)
    (id_tag reason key value : string) (transaction_id : Z)
    (requested : option (list string)) :
  G3.connected st = false ->
  G3.connected (final (G3.start boot st)) = false
  /\ G3._heartbeat_task replies st = (tt, st, [])
  /\ G3.connected (final (G3.start_session_flow cs id_tag st)) = false
  /\ G3.connected (final (G3.stop_session cs reason st)) = false
  /\ G3.connected (final (G3.on_remote_stop_transaction cs transaction_id st)) = false
  /\ G3.connected (final (G3.on_change_configuration key value st)) = false
  /\ G3.connected (final (G3.on_get_configuration requested st)) = false.
Proof.
  intros Hcon. repeat split.
  - destruct st; simpl in Hcon; subst.
    destruct boot as [[[] i]|]; reflexivity.
  - destruct st; simpl in Hcon; subst. destruct replies; reflexivity.
  - now rewrite g3_session_flow_connected.
  - destruct st as [c hb t e ch con cfg ar tag], cs as [rep ok].
    simpl in Hcon; subst. destruct ch, ok; reflexivity.
  - destruct st as [c hb t e ch con cfg ar tag], cs as [rep ok].
    simpl in Hcon; subst.
    unfold G3.on_remote_stop_transaction, bind, get, final. cbn.
    destruct (G3.tx_id_is _ _); destruct ch, ok; reflexivity.
  - destruct (on_change_configuration_heartbeat_interval key value st) as [_ H].
    now rewrite H.
  - unfold G3.on_get_configuration, bind, modify, get, ret, final. cbn.
    destruct (g3_ensure_config_fields st) as [H _]. now rewrite H.
Qed.

Lemma g3_connected_is_never_restored_witness :
  G3._heartbeat_task [true; true] (G3.set_connected false (G3.init "TAG"))
  = (tt, G3.set_connected false (G3.init "TAG"), []).
Proof.
  exact (proj1 (proj2 (g3_connected_is_never_restored
    (G3.set_connected false (G3.init "TAG"))
    {| G3.start_transaction_reply := None; G3.stop_transaction_ok := true |}
    None [true; true] "TAG" "Local" "HeartbeatInterval" "45" 77 None eq_refl))).
Defined.

Lemma heartbeat_cycles_S (k : nat) (hb : Z) :
  heartbeat_cycles (S k) hb = Sleep hb :: Call_Heartbeat :: heartbeat_cycles k hb.
Proof. reflexivity. Qed.

(** The heartbeat of EVBoxG3Simulator over [k] calls that return. *)
Lemma g3_heartbeat_successes (k : nat) (st : G3.state) :
  G3.connected st = true ->
  G3._heartbeat_task (repeat true k) st
  = (tt, st, heartbeat_cycles k (G3.heartbeat_interval st)).
Proof.
  intros Hcon. destruct st as [c hb t e ch con cfg ar tag]; simpl in Hcon; subst.
  induction k as [|k IH]; [reflexivity|].
  cbn [repeat G3._heartbeat_task]. unfold bind, get, emit. cbn.
  rewrite IH. reflexivity.
Qed.

Lemma g3_heartbeat_failure (k : nat) (rest : list bool) (st : G3.state) :
  G3.connected st = true ->
  G3._heartbeat_task (repeat true k ++ false :: rest) st
  = (tt, G3.set_connected false st,
     heartbeat_cycles (S k) (G3.heartbeat_interval st)).
Proof.
  intros Hcon. destruct st as [c hb t e ch con cfg ar tag]; simpl in Hcon; subst.
  induction k as [|k IH]; [reflexivity|].
  cbn [repeat app G3._heartbeat_task]. unfold bind, get, emit. cbn.
  cbn in IH. rewrite IH. reflexivity.
Qed.

Lemma mock_heartbeat_successes (k : nat) (st : Mock.state) :
  Mock.connected st = true ->
  Mock.periodic_heartbeat (repeat true k) st
  = (tt, st, heartbeat_cycles k (Mock.heartbeat_interval st)).
Proof.
  intros Hcon. destruct st as [con s c tag t ch m ms hb mv ar];
    simpl in Hcon; subst.
  induction k as [|k IH]; [reflexivity|].
  cbn [repeat Mock.periodic_heartbeat]. unfold bind, get, emit, when, ret.
  cbn. rewrite IH. reflexivity.
Qed.

Lemma mock_heartbeat_failure (k : nat) (rest : list bool) (st : Mock.state) :
  Mock.connected st = true ->
  Mock.periodic_heartbeat (repeat true k ++ false :: rest) st
  = (tt, Mock.set_connected false st,
     heartbeat_cycles (S k) (Mock.heartbeat_interval st)).
Proof.
  intros Hcon. destruct st as [con s c tag t ch m ms hb mv ar];
    simpl in Hcon; subst.
  induction k as [|k IH].
  - cbn [repeat app Mock.periodic_heartbeat].
    unfold bind, get, emit, when, modify, ret. cbn.
    destruct rest; reflexivity.
  - cbn [repeat app Mock.periodic_heartbeat].
    unfold bind, get, emit, when, ret. cbn.
    cbn in IH. rewrite IH. reflexivity.
Qed.

(** X8: on a live connection the heartbeat of either simulator sleeps for
    its interval and sends [Heartbeat], cycle after cycle, changing
    nothing; the first call that fails clears [connected] and is the
    last one sent, whatever the later calls would have answered. *)
Theorem heartbeat_stops_at_first_failure (k : nat) (rest : list bool)
    (g : G3.state) (m : Mock.state) :
  G3.connected g = true -> Mock.connected m = true ->
  G3._heartbeat_task (repeat true k) g
    = (tt, g, heartbeat_cycles k (G3.heartbeat_interval g))
  /\ G3._heartbeat_task (repeat true k ++ false :: rest) g
     = (tt, G3.set_connected false g,
        heartbeat_cycles (S k) (G3.heartbeat_interval g))
  /\ Mock.periodic_heartbeat (repeat true k) m
     = (tt, m, heartbeat_cycles k (Mock.heartbeat_interval m))
  /\ Mock.periodic_heartbeat (repeat true k ++ false :: rest) m
     = (tt, Mock.set_connected false m,
        heartbeat_cycles (S k) (Mock.heartbeat_interval m)).
Proof.
  intros Hg Hm.
  auto using g3_heartbeat_successes, g3_heartbeat_failure,
    mock_heartbeat_successes, mock_heartbeat_failure.
Qed.

Lemma heartbeat_stops_at_first_failure_witness :
  G3._heartbeat_task (repeat true 2 ++ false :: [true; true]) (G3.init "TAG")
  = (tt, G3.set_connected false (G3.init "TAG"), heartbeat_cycles 3 900).
Proof.
  exact (proj1 (proj2 (heartbeat_stops_at_first_failure 2 [true; true]
                         (G3.init "TAG") Mock.init eq_refl eq_refl))).
Defined.

(** X9: the heartbeat interval after the boot.  EVBoxG3Simulator takes
    the interval of an accepted reply, or 900 when that is 0, and keeps
    its own when the reply is not accepted; EVBoxMock takes the
    interval of the reply (or 900) before it looks at the status, so
    also from a reply that rejects the boot.  When the call raises both
    keep their interval, clear [connected] and start no task. *)
Theorem boot_reply_sets_heartbeat_interval (resp : call_result.BootNotification)
    (g : G3.state) (m : Mock.state) :
  let i := or_Z (call_result.interval resp) 900 in
  G3.heartbeat_interval (final (G3.start (Some resp) g))
    = match call_result.status resp with
      | RegistrationStatus.accepted => i
      | _ => G3.heartbeat_interval g
      end
  /\ Mock.heartbeat_interval (final (Mock.start (Some resp) m)) = i
  /\ (call_result.status resp = RegistrationStatus.accepted ->
      trace (G3.start (Some resp) g)
        = [Create_task Task_listener; Call_BootNotification;
           Create_task Task_heartbeat]
      /\ trace (Mock.start (Some resp) m)
        = [Create_task Task_listener; Call_BootNotification;
           Create_task Task_heartbeat; Create_task Task_post_boot_notifications]
      /\ G3.connected (final (G3.start (Some resp) g)) = G3.connected g
      /\ Mock.connected (final (Mock.start (Some resp) m)) = Mock.connected m)
  /\ G3.start None g
     = (tt, G3.set_connected false g, [Create_task Task_listener; Call_BootNotification])
  /\ Mock.start None m
     = (tt, Mock.set_connected false m,
        [Create_task Task_listener; Call_BootNotification]).
Proof.
  cbv zeta. destruct resp as [s i], g, m.
  destruct s; repeat split; discriminate.
Qed.

(** X10: after a heartbeat of EVBoxMock has failed, [resume_connection]
    gives back exactly the state of before the failure (the session, the
    meter and the intervals are all kept) and starts the listener and
    the heartbeat again, without a [BootNotification]. *)
Theorem mock_resume_after_heartbeat_failure (k : nat) (rest : list bool)
    (m : Mock.state) :
  Mock.connected m = true ->
  let r := Mock.periodic_heartbeat (repeat true k ++ false :: rest) m in
  Mock.connected (final r) = false
  /\ Mock.resume_connection (final r)
     = (tt, m, [Create_task Task_listener; Create_task Task_heartbeat]).
Proof.
  intros Hm. cbv zeta. rewrite mock_heartbeat_failure by assumption.
  destruct m; simpl in Hm; subst. split; reflexivity.
Qed.

Lemma mock_resume_after_heartbeat_failure_witness :
  Mock.resume_connection
    (final (Mock.periodic_heartbeat (repeat true 1 ++ false :: []) Mock.init))
  = (tt, Mock.init, [Create_task Task_listener; Create_task Task_heartbeat]).
Proof.
  exact (proj2 (mock_resume_after_heartbeat_failure 1 [] Mock.init eq_refl)).
Defined.

End Connection.

(** ** EVBoxG3Simulator: more on the configuration store *)

Section G3ConfigMore.

Import G3.

Lemma default_config_unknown (k : string) :
  ~ In k g3_known_keys -> default_config !! k = None.
Proof.
  intros Hk. unfold default_config.
  rewrite !lookup_insert_ne, lookup_empty; [reflexivity|..];
    intros <-; apply Hk; cbn; auto.
Qed.

Lemma default_config_known (k : string) :
  In k g3_known_keys -> is_Some (default_config !! k).
Proof.
  intros [<- | [<- | [<- | [<- | []]]]]; eexists; reflexivity.
Qed.

Lemma config_known_iff (st : state) (k : string) :
  config_ok st -> (is_Some (config st !! k) <-> In k g3_known_keys).
Proof.
  intros Hok. split.
  - intros Hs. destruct (in_dec string_dec k g3_known_keys) as [Hin | Hout];
      [exact Hin|].
    rewrite (config_unknown st k Hok (default_config_unknown k Hout)) in Hs.
    destruct Hs; discriminate.
  - intros Hin. apply config_known; [exact Hok|]. now apply default_config_known.
Qed.

Lemma config_ok_ensure (st : state) : config_ok st -> config_ok (_ensure_config st).
Proof.
  unfold config_ok, _ensure_config.
  destruct st as [c hb t e ch con [m|] [a|] tag]; cbn; auto.
Qed.

(** X11: a key that the store does not have is answered NotSupported,
    and the store stays as it is: nothing is added to it. *)
Theorem g3_unknown_key_not_supported (key value : string) (st : state) :
  config_ok st -> ~ In key g3_known_keys ->
  let r := on_change_configuration key value st in
  result r = ConfigurationStatus.not_supported
  /\ trace r = []
  /\ config (final r) = config st
  /\ config (final r) !! key = None.
Proof.
  intros Hok Hk. cbv zeta.
  pose proof (config_unknown st key Hok (default_config_unknown key Hk)) as Hnone.
  rewrite on_change_configuration_run. cbv zeta.
  rewrite config_ensure, Hnone. unfold final, result, trace. cbn [fst snd].
  rewrite config_ensure. auto.
Qed.

Lemma g3_unknown_key_not_supported_witness :
  result (on_change_configuration "evb_AutoStart" "1" (init "TAG"))
  = ConfigurationStatus.not_supported.
Proof.
  refine (proj1 (g3_unknown_key_not_supported "evb_AutoStart" "1" (init "TAG")
                   I _)).
  cbn. intros [H | [H | [H | [H | []]]]]; discriminate H.
Defined.

(** What a write leaves alone. *)
Lemma on_change_configuration_other_keys (key value other : string) (st : state) :
  config_ok st ->
  other <> key ->
  (key = "AuthorizeRequired" \/ key = "evb_SkipAuthorize" ->
   other <> "AuthorizeRequired" /\ other <> "evb_SkipAuthorize") ->
  config (final (on_change_configuration key value st)) !! other
  = config st !! other.
Proof.
  intros Hok Hne Hflags.
  rewrite on_change_configuration_run. cbv zeta.
  destruct (config (_ensure_config st) !! key) eqn:Hk;
    [|unfold final; cbn [fst snd]; now rewrite config_ensure].
  destruct (String.eqb_spec key "AuthorizeRequired") as [-> | H1].
  { destruct (Hflags (or_introl eq_refl)) as [Ha Hs].
    unfold final. cbn [fst snd].
    rewrite !config_store, config_set_authorize_required, config_store.
    rewrite !lookup_insert_ne by congruence. now rewrite config_ensure. }
  destruct (String.eqb_spec key "evb_SkipAuthorize") as [-> | H2].
  { destruct (Hflags (or_intror eq_refl)) as [Ha Hs].
    unfold final. cbn [fst snd].
    rewrite config_set_authorize_required, !config_store.
    rewrite !lookup_insert_ne by congruence. now rewrite config_ensure. }
  destruct (str_in key _); [destruct (isdigit value)|];
    unfold final; cbn [fst snd]; rewrite ?config_store,
      ?lookup_insert_ne by congruence; now rewrite config_ensure.
Qed.

(** X12: a write changes the key it names and, when that key is one of
    the two authorization flags, the other flag; every other entry of
    the store keeps its value, whether the write is accepted or not. *)
Theorem g3_change_configuration_frame (key value other : string) (st : state) :
  config_ok st ->
  other <> key ->
  (key = "AuthorizeRequired" \/ key = "evb_SkipAuthorize" ->
   other <> "AuthorizeRequired" /\ other <> "evb_SkipAuthorize") ->
  config (final (on_change_configuration key value st)) !! other
  = config st !! other.
Proof. exact (on_change_configuration_other_keys key value other st). Qed.

Lemma g3_change_configuration_frame_witness :
  config (final (on_change_configuration "AuthorizeRequired" "false" (init "TAG")))
    !! "HeartbeatInterval"
  = config (init "TAG") !! "HeartbeatInterval".
Proof.
  refine (g3_change_configuration_frame "AuthorizeRequired" "false"
            "HeartbeatInterval" (init "TAG") I _ _).
  - discriminate.
  - intros _. split; discriminate.
Defined.

(** One write keeps the flags canonical and inverse, and leaves the
    field [authorize_required] in existence. *)
Lemma g3_flags_ok_step (key value : string) (st : state) :
  g3_flags_ok st ->
  g3_flags_ok (final (on_change_configuration key value st))
  /\ authorize_required (final (on_change_configuration key value st)) <> None.
Proof.
  intros (Hok & b & Ha & Hs & Har).
  assert (Hens : g3_flags_ok (_ensure_config st)
                 /\ authorize_required (_ensure_config st) = Some b).
  { split; [split; [now apply config_ok_ensure|exists b]|].
    - rewrite config_ensure. split; [exact Ha|]. split; [exact Hs|]. left.
      destruct Har as [Har | [Har Hcfg]].
      + unfold _ensure_config.
        destruct st as [c hb t e ch con [m|] ar tag]; cbn in *; now subst.
      + destruct st as [c hb t e ch con cfg ar tag]; cbn in *; subst.
        cbn in Ha. injection Ha as Ha. destruct b; [reflexivity|discriminate].
    - destruct Har as [Har | [Har Hcfg]].
      + unfold _ensure_config.
        destruct st as [c hb t e ch con [m|] ar tag]; cbn in *; now subst.
      + destruct st as [c hb t e ch con cfg ar tag]; cbn in *; subst.
        cbn in Ha. injection Ha as Ha. destruct b; [reflexivity|discriminate]. }
  destruct Hens as [(Hok1 & _) Har1].
  pose proof (config_ok_preserved key value st Hok) as Hok'.
  destruct (String.eqb_spec key "AuthorizeRequired") as [-> | H1].
  { destruct (write_AuthorizeRequired_lookups value st Hok) as (Hr & Ha' & Hs').
    split; [|cbv zeta in Hr; rewrite Hr; discriminate].
    split; [exact Hok'|]. exists (_as_bool value). auto. }
  destruct (String.eqb_spec key "evb_SkipAuthorize") as [-> | H2].
  { destruct (write_evb_SkipAuthorize_lookups value st Hok) as (Hr & Hs' & Ha').
    split; [|cbv zeta in Hr; rewrite Hr; discriminate].
    split; [exact Hok'|]. exists (negb (_as_bool value)).
    cbv zeta in *. rewrite Ha', Hs', Hr.
    destruct (_as_bool value); auto. }
  assert (Hfa : config (final (on_change_configuration key value st))
                  !! "AuthorizeRequired" = config st !! "AuthorizeRequired").
  { apply on_change_configuration_other_keys; [exact Hok | congruence | tauto]. }
  assert (Hfs : config (final (on_change_configuration key value st))
                  !! "evb_SkipAuthorize" = config st !! "evb_SkipAuthorize").
  { apply on_change_configuration_other_keys; [exact Hok | congruence | tauto]. }
  assert (Hfr : authorize_required (final (on_change_configuration key value st))
                = Some b).
  { rewrite on_change_configuration_run. cbv zeta.
    apply String.eqb_neq in H1, H2. rewrite H1, H2.
    destruct (config (_ensure_config st) !! key); [|exact Har1].
    destruct (str_in key _); [destruct (isdigit value)|]; exact Har1. }
  split; [|rewrite Hfr; discriminate].
  split; [exact Hok'|]. exists b. rewrite Hfa, Hfs, Hfr. auto.
Qed.

Lemma g3_flags_ok_init (id_tag : string) : g3_flags_ok (init id_tag).
Proof.
  split; [exact I|]. exists true. repeat split. right. split; reflexivity.
Qed.

Lemma g3_flags_ok_all (writes : list (string * string)) (st : state) :
  g3_flags_ok st ->
  g3_flags_ok (g3_change_all writes st)
  /\ (writes <> [] -> authorize_required (g3_change_all writes st) <> None).
Proof.
  revert st. induction writes as [|[k v] rest IH]; intros st Hst.
  - split; [exact Hst | congruence].
  - cbn [g3_change_all].
    destruct (g3_flags_ok_step k v st Hst) as [Hst' Har].
    destruct (IH _ Hst') as [Hall Hrest]. split; [exact Hall|]. intros _.
    destruct rest as [|w rest']; [exact Har | apply Hrest; discriminate].
Qed.

(** X13: after any sequence of [ChangeConfiguration] calls on a fresh
    charge point, accepted or not and to whatever keys, the store still
    has exactly its four keys, [AuthorizeRequired] is "true" or "false",
    [evb_SkipAuthorize] is "0" or "1" and is its inverse, and after the
    first call the field [authorize_required] is the boolean the two
    stand for. *)
Theorem g3_flags_inverse_after_any_writes (writes : list (string * string))
    (id_tag : string) :
  let st := g3_change_all writes (init id_tag) in
  (forall k, is_Some (config st !! k) <-> In k g3_known_keys)
  /\ flags_inverse (fun k => config st !! k) "AuthorizeRequired" "evb_SkipAuthorize"
  /\ exists b : bool,
       config st !! "AuthorizeRequired" = Some (if b then "true" else "false")
       /\ config st !! "evb_SkipAuthorize" = Some (if b then "0" else "1")
       /\ (writes <> [] -> authorize_required st = Some b).
Proof.
  cbv zeta.
  destruct (g3_flags_ok_all writes (init id_tag) (g3_flags_ok_init id_tag))
    as [(Hok & b & Ha & Hs & Har) Hne].
  split; [intros k; now apply config_known_iff|]. split.
  - exists (if b then "true" else "false"), (if b then "0" else "1").
    split; [exact Ha|]. split; [exact Hs|]. destruct b; reflexivity.
  - exists b. split; [exact Ha|]. split; [exact Hs|]. intros Hw.
    destruct Har as [Har | [Har _]]; [exact Har|]. now apply Hne in Hw.
Qed.

(** [GetConfiguration] with a request. *)
Lemma on_get_configuration_run (ks : list string) (st : state) :
  on_get_configuration (Some ks) st
  = (omap (fun k => (fun v => {| key := k; value := v; readonly := false |})
                      <$> config st !! k) ks,
     match List.filter (fun k => negb (bool_decide (is_Some (config st !! k)))) ks with
     | [] => None
     | u :: us => Some (u :: us)
     end,
     _ensure_config st, []).
Proof.
  unfold on_get_configuration, bind, modify, get, ret. cbn.
  rewrite config_ensure.
  destruct (List.filter _ ks); reflexivity.
Qed.

(** X14: [GetConfiguration] for one key answers with the entry of the
    store, not read-only, when the key is one of the four of the store,
    and with the key as unknown otherwise; it changes nothing in the
    store.  A request that names no key lists nothing. *)
Theorem g3_get_configuration_one_key (k : string) (st : state) :
  config_ok st ->
  let r := on_get_configuration (Some [k]) st in
  (In k g3_known_keys ->
   exists v, config st !! k = Some v
             /\ result r = ([{| key := k; value := v; readonly := false |}], None))
  /\ (~ In k g3_known_keys -> result r = ([], Some [k]))
  /\ config (final r) = config st
  /\ result (on_get_configuration (Some []) st) = ([], None).
Proof.
  intros Hok. cbv zeta. rewrite !on_get_configuration_run.
  unfold result, final. cbn [fst snd omap List.filter].
  split; [|split; [|split]].
  - intros Hin. destruct (proj2 (config_known_iff st k Hok) Hin) as [v Hv].
    exists v. split; [exact Hv|]. cbn. rewrite !Hv. cbn.
    rewrite ?bool_decide_true by eauto. reflexivity.
  - intros Hout.
    pose proof (config_unknown st k Hok (default_config_unknown k Hout)) as Hn.
    cbn. rewrite !Hn. cbn.
    rewrite ?bool_decide_false by (intros [? ?]; discriminate). reflexivity.
  - apply config_ensure.
  - reflexivity.
Qed.

Lemma g3_get_configuration_one_key_witness :
  result (on_get_configuration (Some ["evb_AutoStart"]) (init "TAG"))
  = ([], Some ["evb_AutoStart"]).
Proof.
  refine (proj1 (proj2 (g3_get_configuration_one_key "evb_AutoStart"
                          (init "TAG") I)) _).
  cbn. intros [H | [H | [H | [H | []]]]]; discriminate H.
Defined.

(** X15: what [GetConfiguration] reports after a write.  For a numeric
    key it is the value just written, as it was written, when that is a
    string of digits, and the value of before when the write is
    rejected; for [AuthorizeRequired] it is "true" or "false", as the
    value written reads. *)
Theorem g3_get_after_change (key value old : string) (st : state) :
  config_ok st ->
  config st !! key = Some old ->
  key = "HeartbeatInterval" \/ key = "MeterValuesSampleInterval"
  \/ key = "AuthorizeRequired" ->
  let st' := final (on_change_configuration key value st) in
  let reported :=
    if String.eqb key "AuthorizeRequired"
    then (if _as_bool value then "true" else "false")
    else (if isdigit value then value else old) in
  result (on_get_configuration (Some [key]) st')
  = ([{| key := key; value := reported; readonly := false |}], None).
Proof.
  intros Hok Hold Hkey. cbv zeta.
  assert (Hv : config (final (on_change_configuration key value st)) !! key
               = Some (if String.eqb key "AuthorizeRequired"
                       then (if _as_bool value then "true" else "false")
                       else (if isdigit value then value else old))).
  { destruct Hkey as [Hk | [Hk | Hk]].
    - rewrite (write_numeric key value st Hok (or_introl Hk)). subst key.
      destruct (isdigit value); unfold final; cbn [fst snd].
      + rewrite config_store. apply lookup_insert_eq.
      + now rewrite config_ensure.
    - rewrite (write_numeric key value st Hok (or_intror Hk)). subst key.
      destruct (isdigit value); unfold final; cbn [fst snd].
      + rewrite config_store. apply lookup_insert_eq.
      + now rewrite config_ensure.
    - subst key.
      destruct (write_AuthorizeRequired_lookups value st Hok) as (_ & Ha & _).
      exact Ha. }
  revert Hv. generalize (final (on_change_configuration key value st)).
  intros st' Hv. rewrite on_get_configuration_run. unfold result.
  cbn. rewrite !Hv. cbn. rewrite ?bool_decide_true by eauto. reflexivity.
Qed.

Lemma g3_get_after_change_witness :
  result (on_get_configuration (Some ["HeartbeatInterval"])
            (final (on_change_configuration "HeartbeatInterval" "007" (init "TAG"))))
  = ([{| key := "HeartbeatInterval"; value := "007"; readonly := false |}], None).
Proof.
  exact (g3_get_after_change "HeartbeatInterval" "007" "900" (init "TAG")
           I eq_refl (or_introl eq_refl)).
Defined.

End G3ConfigMore.

(** ** [int] reads what [str] prints *)

Section IntOfStr.

Lemma string_of_uint_all_digits (d : Decimal.uint) :
  all_digits (NilEmpty.string_of_uint d) = true.
Proof. induction d; cbn [NilEmpty.string_of_uint all_digits]; auto. Qed.

Lemma int_digits_of_uint_acc (d : Decimal.uint) (acc : positive) :
  int_digits (Z.pos acc) false (NilEmpty.string_of_uint d)
  = Some (Z.pos (Pos.of_uint_acc d acc)).
Proof.
  revert acc. induction d; intros acc;
    cbn [NilEmpty.string_of_uint int_digits Pos.of_uint_acc];
    [reflexivity|..];
    match goal with
    | |- context [is_digit ?c] => change (is_digit c) with true; cbv iota
    end;
    rewrite <- IHd; f_equal;
    match goal with
    | |- context [digit_val ?c] =>
        let v := eval vm_compute in (digit_val c) in
        change (digit_val c) with v
    end; lia.
Qed.

Lemma int_digits_of_uint (d : Decimal.uint) :
  int_digits 0 false (NilEmpty.string_of_uint d) = Some (Z.of_N (Pos.of_uint d)).
Proof.
  induction d; cbn [NilEmpty.string_of_uint int_digits Pos.of_uint];
    [reflexivity|..];
    match goal with
    | |- context [is_digit ?c] => change (is_digit c) with true; cbv iota
    end;
    match goal with
    | |- context [digit_val ?c] =>
        let v := eval vm_compute in (digit_val c) in
        change (digit_val c) with v
    end;
    first [exact IHd | apply int_digits_of_uint_acc].
Qed.

(** On a string of digits [int] is the reading of the digits. *)
Lemma py_int_of_digits (s : string) :
  isdigit s = true -> py_int s = int_digits 0 false s.
Proof.
  destruct s as [|c s]; [discriminate|]. unfold isdigit. intros H.
  unfold py_int. rewrite (int_strip_digits _ H).
  simpl in H. apply andb_prop in H as [Hc Hs].
  assert (Hu : int_unsigned (String c s) = int_digits 0 false (String c s)).
  { cbn [int_unsigned int_digits]. rewrite Hc. reflexivity. }
  assert (Hplus : c <> "+"%char) by (intros ->; discriminate).
  assert (Hminus : c <> "-"%char) by (intros ->; discriminate).
  destruct c as [[] [] [] [] [] [] [] []]; try exact Hu; congruence.
Qed.

Lemma string_of_uint_isdigit (d : Decimal.uint) :
  d <> Decimal.Nil -> isdigit (NilEmpty.string_of_uint d) = true.
Proof.
  intros Hd. pose proof (string_of_uint_all_digits d) as H.
  destruct d; [congruence|..]; exact H.
Qed.

Lemma int_unsigned_of_digits (s : string) :
  isdigit s = true -> int_unsigned s = int_digits 0 false s.
Proof.
  destruct s as [|c s]; [discriminate|]. unfold isdigit. cbn [all_digits].
  intros H. apply andb_prop in H as [Hc _].
  cbn [int_unsigned int_digits]. rewrite Hc. reflexivity.
Qed.

Lemma int_rstrip_cons (c : ascii) (s : string) :
  int_rstrip s <> EmptyString -> int_rstrip (String c s) = String c (int_rstrip s).
Proof. cbn [int_rstrip]. destruct (int_rstrip s); congruence. Qed.

(** A minus sign before a string of digits. *)
Lemma py_int_minus_digits (s : string) :
  isdigit s = true ->
  py_int (String "-" s) = option_map Z.opp (int_digits 0 false s).
Proof.
  intros Hd. rewrite <- (int_unsigned_of_digits _ Hd).
  assert (Ha : all_digits s = true) by (destruct s; [discriminate | exact Hd]).
  unfold py_int, int_strip.
  rewrite int_rstrip_cons
    by (rewrite (int_rstrip_digits _ Ha); destruct s; discriminate).
  rewrite (int_rstrip_digits _ Ha). reflexivity.
Qed.

(** [int(str(z)) == z] *)
Lemma py_int_str_Z (z : Z) : py_int (str_Z z) = Some z.
Proof.
  destruct z as [|p|p]; [reflexivity|..];
    unfold str_Z, NilZero.string_of_int; cbn [Z.to_int];
    pose proof (Unsigned.to_uint_nonnil p) as Hn;
    assert (Hs : NilZero.string_of_uint (Pos.to_uint p)
                 = NilEmpty.string_of_uint (Pos.to_uint p))
      by (destruct (Pos.to_uint p); [congruence|..]; reflexivity);
    rewrite Hs.
  - rewrite py_int_of_digits by now apply string_of_uint_isdigit.
    now rewrite int_digits_of_uint, Unsigned.of_to.
  - rewrite py_int_minus_digits by now apply string_of_uint_isdigit.
    now rewrite int_digits_of_uint, Unsigned.of_to.
Qed.

End IntOfStr.

(** ** EVBoxMock: the charging sequence *)

Section MockSequence.

Import Mock.

(** Each of the ten samples adds 1 Wh. *)
Lemma mock_step_wh (i : Z) :
  1 <= i <= 10 -> Z.max 1 (round_div (i * 150 * 3) 3600) = 1.
Proof.
  intros Hi.
  assert (H : i = 1 \/ i = 2 \/ i = 3 \/ i = 4 \/ i = 5 \/ i = 6 \/ i = 7
              \/ i = 8 \/ i = 9 \/ i = 10) by lia.
  repeat (destruct H as [-> | H]; [reflexivity|]). subst. reflexivity.
Qed.

(** One turn of the loop of [_simulate_meter_values]. *)
Lemma mock_meter_loop_step (cs : csms) (i : Z) (rest : list Z) (st : state) :
  charging st = true -> connected st = true -> 1 <= i <= 10 ->
  meter_loop cs (i :: rest) st
  = let st1 := set_meter_wh_counter (meter_wh_counter st + 1) st in
    let sample := Call_MeterValues (transaction_id st) (Some (i * 150))
                    (meter_wh_counter st + 1) in
    if meter_values_ok cs i then
      let '(u, st2, tr) := meter_loop cs rest st1 in
      (u, st2,
       sample :: Gui_update_energy_values (i * 150) (meter_wh_counter st + 1) :: tr)
    else (tt, st1, [sample]).
Proof.
  intros Hc Hcon Hi.
  destruct st as [con s c tag t ch m ms hb mv ar]; simpl in Hc, Hcon; subst.
  cbn [meter_loop]. unfold bind, get, modify, emit, ret.
  cbn [charging connected negb orb meter_wh_counter transaction_id
       set_meter_wh_counter status connector_id current_id_tag meter_start_wh
       heartbeat_interval meter_values_interval authorize_required app].
  rewrite (mock_step_wh i Hi). cbv zeta.
  destruct (meter_values_ok cs i); [|reflexivity].
  destruct (meter_loop cs rest _) as [[u st2] tr]. reflexivity.
Qed.

Lemma mock_meter_loop_all_ok (cs : csms) (ids : list Z) (m j : Z) (st : state) :
  charging st = true -> connected st = true -> meter_wh_counter st = m + j ->
  Forall (fun i => 1 <= i <= 10 /\ meter_values_ok cs i = true) ids ->
  meter_loop cs ids st
  = (tt, set_meter_wh_counter (m + (j + Z.of_nat (length ids))) st,
     mock_sample_events (transaction_id st) m j ids).
Proof.
  revert j st. induction ids as [|i rest IH]; intros j st Hc Hcon Hm Hall.
  - cbn [length meter_loop mock_sample_events]. unfold ret.
    replace (m + (j + Z.of_nat 0)) with (meter_wh_counter st) by lia.
    destruct st; reflexivity.
  - inversion Hall as [|? ? [Hi Hok] Hrest]; subst.
    rewrite mock_meter_loop_step by assumption. cbv zeta. rewrite Hok.
    rewrite (IH (j + 1));
      [| destruct st; assumption | destruct st; assumption
       | destruct st; cbn in *; lia | assumption].
    replace (meter_wh_counter st + 1) with (m + (j + 1)) by lia.
    replace (m + (j + Z.of_nat (length (i :: rest))))
      with (m + (j + 1 + Z.of_nat (length rest))) by (cbn [length]; lia).
    destruct st; reflexivity.
Qed.

Lemma mock_meter_loop_fails (cs : csms) (pre : list Z) (i : Z) (post : list Z)
    (m j : Z) (st : state) :
  charging st = true -> connected st = true -> meter_wh_counter st = m + j ->
  Forall (fun i => 1 <= i <= 10 /\ meter_values_ok cs i = true) pre ->
  1 <= i <= 10 -> meter_values_ok cs i = false ->
  meter_loop cs (pre ++ i :: post) st
  = (tt, set_meter_wh_counter (m + (j + Z.of_nat (length pre) + 1)) st,
     (mock_sample_events (transaction_id st) m j pre
      ++ [Call_MeterValues (transaction_id st) (Some (i * 150))
            (m + (j + Z.of_nat (length pre) + 1))])%list).
Proof.
  revert j st. induction pre as [|k pre IH]; intros j st Hc Hcon Hm Hall Hi Hbad.
  - cbn [app length mock_sample_events].
    rewrite mock_meter_loop_step by assumption. cbv zeta. rewrite Hbad.
    replace (m + (j + Z.of_nat 0 + 1)) with (meter_wh_counter st + 1) by lia.
    reflexivity.
  - inversion Hall as [|? ? [Hk Hok] Hrest]; subst.
    cbn [app]. rewrite mock_meter_loop_step by assumption. cbv zeta. rewrite Hok.
    rewrite (IH (j + 1));
      [| destruct st; assumption | destruct st; assumption
       | destruct st; cbn in *; lia | assumption | assumption | assumption].
    replace (meter_wh_counter st + 1) with (m + (j + 1)) by lia.
    replace (m + (j + Z.of_nat (length (k :: pre)) + 1))
      with (m + (j + 1 + Z.of_nat (length pre) + 1)) by (cbn [length]; lia).
    destruct st; reflexivity.
Qed.

(** Whatever the CSMS answers, the loop only moves the energy
    register, upwards, and its samples increase from above the register
    it starts with. *)
Lemma mock_meter_loop_any (cs : csms) (ids : list Z) (st : state) :
  (exists m', final (meter_loop cs ids st) = set_meter_wh_counter m' st
              /\ meter_wh_counter st <= m')
  /\ StronglySorted Z.lt (meter_samples (trace (meter_loop cs ids st)))
  /\ Forall (Z.lt (meter_wh_counter st)) (meter_samples (trace (meter_loop cs ids st)))
  /\ List.filter is_Authorize (trace (meter_loop cs ids st)) = []
  /\ List.filter is_StartTransaction (trace (meter_loop cs ids st)) = []
  /\ List.filter is_StopTransaction (trace (meter_loop cs ids st)) = [].
Proof.
  revert st. induction ids as [|i rest IH]; intros st.
  - split; [exists (meter_wh_counter st); split; [destruct st; reflexivity|lia]|].
    repeat split; constructor.
  - destruct st as [con s c tag t ch m ms hb mv ar].
    destruct ch, con;
      try (split; [exists m; split; [reflexivity|cbn; lia]|];
           repeat split; constructor).
    cbn [meter_loop]. unfold bind, get, modify, emit, ret.
    cbn [charging connected negb orb meter_wh_counter transaction_id
         set_meter_wh_counter status connector_id current_id_tag
         meter_start_wh heartbeat_interval meter_values_interval
         authorize_required app].
    set (step := Z.max 1 (round_div (i * 150 * 3) 3600)).
    assert (Hstep : 1 <= step) by (unfold step; lia).
    destruct (meter_values_ok cs i).
    + specialize (IH (mk_state true s c tag t true (m + step) ms hb mv ar)).
      destruct (meter_loop cs rest _) as [[u st2] tr].
      unfold final, trace in *. cbn [fst snd meter_wh_counter] in *.
      destruct IH as ((m' & Hf & Hle) & Hs & Hgt & Ha & Hst & Hsp).
      split; [exists m'; split; [rewrite Hf; reflexivity | lia]|].
      cbn. rewrite Ha, Hst, Hsp. repeat split.
      * constructor; [exact Hs | exact Hgt].
      * constructor; [lia|].
        eapply List.Forall_impl; [|exact Hgt]. cbn. intros; lia.
    + split; [exists (m + step); split; [reflexivity | cbn; lia]|].
      cbn. repeat split; repeat constructor. lia.
Qed.

(** X16: the energy samples that the metering loop of EVBoxMock sends
    increase strictly, from above the register the loop starts with,
    whichever calls of [MeterValues] fail; the loop changes nothing but
    the register, which it never lowers. *)
Theorem mock_meter_samples_increase (cs : csms) (ids : list Z) (st : state) :
  let r := meter_loop cs ids st in
  StronglySorted Z.lt (meter_samples (trace r))
  /\ Forall (Z.lt (meter_wh_counter st)) (meter_samples (trace r))
  /\ exists m', final r = set_meter_wh_counter m' st /\ meter_wh_counter st <= m'.
Proof.
  cbv zeta. destruct (mock_meter_loop_any cs ids st) as (Hf & Hs & Hgt & _).
  auto.
Qed.

Lemma mock_ten_samples_ok (cs : csms) :
  (forall i, 1 <= i <= 10 -> meter_values_ok cs i = true) ->
  Forall (fun i => 1 <= i <= 10 /\ meter_values_ok cs i = true) (seqZ 1 10).
Proof.
  intros H. change (seqZ 1 10) with [1; 2; 3; 4; 5; 6; 7; 8; 9; 10].
  repeat (constructor; [split; [lia | apply H; lia]|]). constructor.
Qed.

(** The charging sequence once the tag is authorized, when every call
    returns.  [StopTransaction] carries [current_id_tag or id_tag_default]:
    the tag of the session, or the default tag when that tag is the empty
    string. *)
Lemma charging_sequence_authorized_run (cs : csms) (id_tag : string) (tx : Z)
    (st : state) :
  connected st = true ->
  start_transaction_reply cs = Some tx ->
  (forall i, 1 <= i <= 10 -> meter_values_ok cs i = true) ->
  let m := meter_wh_counter st in
  let ok := stop_transaction_ok cs in
  charging_sequence_authorized cs id_tag st
  = (tt,
     mk_state true ChargePointStatus.available (connector_id st)
       (if ok then None else Some id_tag) (if ok then None else Some tx)
       false (m + 10) m (heartbeat_interval st) (meter_values_interval st)
       (authorize_required st),
     ([ Gui_update_charging_status Carregando;
        Call_StatusNotification (connector_id st) ChargePointStatus.preparing None;
        Call_StartTransaction (connector_id st) id_tag m;
        Call_StatusNotification (connector_id st) ChargePointStatus.charging None ]
      ++ mock_sample_events (Some tx) m 0 (seqZ 1 10)
      ++ [ Call_MeterValues (Some tx) None (m + 10);
           Call_StopTransaction (Some tx)
             (if String.eqb id_tag "" then id_tag_default else id_tag)
             (m + 10) "Local";
           Call_StatusNotification (connector_id st) ChargePointStatus.available None;
           Gui_update_charging_status Disponivel ])%list).
Proof.
  intros Hcon Hrep Hok. cbv zeta.
  destruct st as [con s c tag t ch m ms hb mv ar]; simpl in Hcon; subst.
  destruct cs as [areply sreply mok sok]; simpl in Hrep, Hok; subst.
  unfold charging_sequence_authorized, charging_sequence_from, _send_status,
    _send_start_transaction, _send_transaction_end_sample,
    _send_stop_transaction, bind, get, modify, emit, when, ret.
  cbn [start_transaction_reply stop_transaction_ok charging connected
       meter_wh_counter transaction_id set_meter_wh_counter status connector_id
       current_id_tag meter_start_wh heartbeat_interval meter_values_interval
       authorize_required set_charging set_status set_current_id_tag
       set_meter_start_wh set_transaction_id app].
  rewrite (mock_meter_loop_all_ok _ (seqZ 1 10) m 0);
    [| reflexivity | reflexivity | cbn; lia
     | apply mock_ten_samples_ok; exact Hok].
  destruct sok, id_tag; reflexivity.
Qed.

(** X17: a charging sequence of EVBoxMock whose calls all return.  The
    transaction id of the reply to [StartTransaction] is taken as it
    comes (nothing requires it to be positive); ten samples add 1 Wh
    each, an eleventh repeats the last reading, and [StopTransaction]
    reports the meter start plus 10 Wh for that transaction, after which
    the charge point is Available and idle.  [StartTransaction] carries
    the tag as it is; [StopTransaction] carries it too, except that for
    the empty tag it carries the default tag ABC123456. *)
Theorem mock_sequence_energy_accounting (cs : csms) (id_tag : string) (tx : Z)
    (st : state) :
  connected st = true ->
  start_transaction_reply cs = Some tx ->
  (forall i, 1 <= i <= 10 -> meter_values_ok cs i = true) ->
  let r := charging_sequence_authorized cs id_tag st in
  let m := meter_wh_counter st in
  meter_samples (trace r)
  = [m + 1; m + 2; m + 3; m + 4; m + 5; m + 6; m + 7; m + 8; m + 9; m + 10; m + 10]
  /\ List.filter is_StartTransaction (trace r)
     = [Call_StartTransaction (connector_id st) id_tag m]
  /\ List.filter is_StopTransaction (trace r)
     = [Call_StopTransaction (Some tx)
          (if String.eqb id_tag "" then "ABC123456" else id_tag)
          (m + 10) "Local"]
  /\ meter_wh_counter (final r) = m + 10
  /\ meter_start_wh (final r) = m
  /\ charging (final r) = false
  /\ status (final r) = ChargePointStatus.available
  /\ transaction_id (final r) = (if stop_transaction_ok cs then None else Some tx).
Proof.
  intros Hcon Hrep Hok. cbv zeta.
  rewrite (charging_sequence_authorized_run cs id_tag tx st Hcon Hrep Hok).
  cbv zeta. change (seqZ 1 10) with [1; 2; 3; 4; 5; 6; 7; 8; 9; 10].
  repeat split.
Qed.

Lemma mock_sequence_energy_accounting_witness :
  meter_wh_counter
    (final (charging_sequence_authorized
              {| authorize_reply := None; start_transaction_reply := Some (-3);
                 meter_values_ok := fun _ => true; stop_transaction_ok := true |}
              "TAG" init))
  = 0 + 10.
Proof.
  exact (proj1 (proj2 (proj2 (proj2 (mock_sequence_energy_accounting
    {| authorize_reply := None; start_transaction_reply := Some (-3);
       meter_values_ok := fun _ => true; stop_transaction_ok := true |}
    "TAG" (-3) init eq_refl eq_refl (fun _ _ => eq_refl)))))).
Defined.

(** A sequence run with the empty tag: [StartTransaction] carries the
    empty tag and [StopTransaction] the default one. *)
Remark mock_sequence_empty_tag :
  let cs := {| authorize_reply := Some AuthorizationStatus.accepted;
               start_transaction_reply := Some 77;
               meter_values_ok := fun _ => true;
               stop_transaction_ok := true |} in
  let tr := trace (start_charging_sequence cs "" init) in
  List.filter is_StartTransaction tr = [Call_StartTransaction 1 "" 0]
  /\ List.filter is_StopTransaction tr
     = [Call_StopTransaction (Some 77) "ABC123456" 10 "Local"].
Proof. split; vm_compute; reflexivity. Qed.

Lemma seqZ_1_10_split (i : Z) :
  1 <= i <= 10 ->
  exists pre post,
    seqZ 1 10 = (pre ++ i :: post)%list
    /\ Z.of_nat (length pre) = i - 1
    /\ Forall (fun k => 1 <= k < i) pre.
Proof.
  intros Hi.
  exists (firstn (Z.to_nat (i - 1)) (seqZ 1 10)), (skipn (Z.to_nat i) (seqZ 1 10)).
  assert (H : i = 1 \/ i = 2 \/ i = 3 \/ i = 4 \/ i = 5 \/ i = 6 \/ i = 7
              \/ i = 8 \/ i = 9 \/ i = 10) by lia.
  repeat (destruct H as [-> | H];
          [split; [reflexivity|]; split; [reflexivity|];
           cbn; repeat (constructor; [lia|]); constructor|]).
  subst. split; [reflexivity|]. split; [reflexivity|].
  cbn; repeat (constructor; [lia|]); constructor.
Qed.

Lemma mock_sample_events_count (tx : option Z) (m j : Z) (ids : list Z) :
  length (List.filter is_MeterValues (mock_sample_events tx m j ids)) = length ids
  /\ List.filter is_StopTransaction (mock_sample_events tx m j ids) = []
  /\ List.filter is_StartTransaction (mock_sample_events tx m j ids) = [].
Proof.
  revert j. induction ids as [|i rest IH]; intros j; [repeat split|].
  destruct (IH (j + 1)) as (H1 & H2 & H3). cbn. rewrite H1, H2, H3. auto.
Qed.

(** X18: when the call of [MeterValues] of sample [i] is the first that
    fails, the loop of EVBoxMock stops there: [i] samples have been sent
    and the register has advanced by [i] Wh, the failed sample counted.
    The sequence then still sends the closing sample and
    [StopTransaction], with that register as the meter stop and with the
    tag of the session (the default tag ABC123456 when that tag is the
    empty string), and ends Available and idle. *)
Theorem mock_meter_values_failure (cs : csms) (id_tag : string) (tx i : Z)
    (st : state) :
  connected st = true ->
  start_transaction_reply cs = Some tx ->
  1 <= i <= 10 ->
  (forall k, 1 <= k < i -> meter_values_ok cs k = true) ->
  meter_values_ok cs i = false ->
  let r := charging_sequence_authorized cs id_tag st in
  let m := meter_wh_counter st in
  length (List.filter is_MeterValues (trace r)) = S (Z.to_nat i)
  /\ List.filter is_StopTransaction (trace r)
     = [Call_StopTransaction (Some tx)
          (if String.eqb id_tag "" then "ABC123456" else id_tag)
          (m + i) "Local"]
  /\ meter_wh_counter (final r) = m + i
  /\ meter_start_wh (final r) = m
  /\ charging (final r) = false
  /\ status (final r) = ChargePointStatus.available.
Proof.
  intros Hcon Hrep Hi Hok Hbad. cbv zeta.
  destruct (seqZ_1_10_split i Hi) as (pre & post & Hsplit & Hlen & Hpre).
  assert (Hall : Forall (fun k => 1 <= k <= 10 /\ meter_values_ok cs k = true) pre).
  { eapply List.Forall_impl; [|exact Hpre]. cbn. intros k Hk.
    split; [lia | apply Hok; lia]. }
  destruct st as [con s c tag t ch m ms hb mv ar]; simpl in Hcon; subst.
  destruct cs as [areply sreply mok sok]; simpl in Hrep, Hok, Hbad, Hall; subst.
  unfold charging_sequence_authorized, charging_sequence_from, _send_status,
    _send_start_transaction, _send_transaction_end_sample,
    _send_stop_transaction, bind, get, modify, emit, when, ret.
  cbn [start_transaction_reply stop_transaction_ok charging connected
       meter_wh_counter transaction_id set_meter_wh_counter status connector_id
       current_id_tag meter_start_wh heartbeat_interval meter_values_interval
       authorize_required set_charging set_status set_current_id_tag
       set_meter_start_wh set_transaction_id app].
  rewrite Hsplit.
  rewrite (mock_meter_loop_fails _ pre i post m 0);
    [| reflexivity | reflexivity | cbn; lia | exact Hall | exact Hi | exact Hbad].
  replace (m + (0 + Z.of_nat (length pre) + 1)) with (m + i) by lia.
  destruct (mock_sample_events_count (Some tx) m 0 pre) as (Hc1 & Hc2 & Hc3).
  unfold final, trace.
  cbn [fst snd charging meter_wh_counter transaction_id set_meter_wh_counter
       status connector_id current_id_tag meter_start_wh heartbeat_interval
       meter_values_interval authorize_required set_charging set_status
       set_current_id_tag set_meter_start_wh set_transaction_id].
  destruct sok, id_tag;
    cbn [fst snd app List.filter is_MeterValues is_StopTransaction
         meter_wh_counter meter_start_wh charging status set_charging
         set_status set_transaction_id set_current_id_tag or_str];
    rewrite !List.filter_app, ?Hc2; cbn [List.filter is_MeterValues
      is_StopTransaction app];
    rewrite ?length_app, ?List.length_app, ?Hc1; cbn [length];
    repeat split; try reflexivity; lia.
Qed.

Lemma mock_meter_values_failure_witness :
  meter_wh_counter
    (final (charging_sequence_authorized
              {| authorize_reply := None; start_transaction_reply := Some 77;
                 meter_values_ok := fun k => Z.ltb k 3;
                 stop_transaction_ok := true |}
              "TAG" init))
  = 0 + 3.
Proof.
  refine (proj1 (proj2 (proj2 (mock_meter_values_failure
    {| authorize_reply := None; start_transaction_reply := Some 77;
       meter_values_ok := fun k => Z.ltb k 3; stop_transaction_ok := true |}
    "TAG" 77 3 init eq_refl eq_refl _ _ eq_refl)))).
  - lia.
  - intros k Hk. apply Z.ltb_lt. lia.
Defined.

(** X19: when the call of [StartTransaction] raises, the sequence of
    EVBoxMock clears [charging] and sends neither a sample nor a
    [StopTransaction], but it has announced Preparing and still
    announces Charging, and that is the status it is left with; the
    transaction id is the one of before. *)
Theorem mock_start_transaction_raises (cs : csms) (id_tag : string) (st : state) :
  start_transaction_reply cs = None ->
  let r := charging_sequence_authorized cs id_tag st in
  trace r
  = [ Gui_update_charging_status Carregando;
      Call_StatusNotification (connector_id st) ChargePointStatus.preparing None;
      Call_StartTransaction (connector_id st) id_tag (meter_wh_counter st);
      Call_StatusNotification (connector_id st) ChargePointStatus.charging None ]
  /\ charging (final r) = false
  /\ status (final r) = ChargePointStatus.charging
  /\ transaction_id (final r) = transaction_id st
  /\ meter_wh_counter (final r) = meter_wh_counter st.
Proof.
  intros Hrep. cbv zeta.
  destruct st as [con s c tag t ch m ms hb mv ar].
  destruct cs as [areply sreply mok sok]; simpl in Hrep; subst.
  unfold charging_sequence_authorized, _send_status, _send_start_transaction,
    bind, get, modify, emit, when, ret.
  cbn [start_transaction_reply charging connected
       meter_wh_counter transaction_id set_meter_wh_counter status connector_id
       current_id_tag meter_start_wh heartbeat_interval meter_values_interval
       authorize_required set_charging set_status set_current_id_tag
       set_meter_start_wh set_transaction_id app].
  rewrite charging_sequence_from_not_charging by reflexivity.
  repeat split.
Qed.

Lemma mock_start_transaction_raises_witness :
  status
    (final (charging_sequence_authorized
              {| authorize_reply := None; start_transaction_reply := None;
                 meter_values_ok := fun _ => true; stop_transaction_ok := true |}
              "TAG" init))
  = ChargePointStatus.charging.
Proof.
  exact (proj1 (proj2 (proj2 (mock_start_transaction_raises
    {| authorize_reply := None; start_transaction_reply := None;
       meter_values_ok := fun _ => true; stop_transaction_ok := true |}
    "TAG" init eq_refl)))).
Defined.

(** What is left of a charging sequence sends neither [Authorize] nor
    [StartTransaction]. *)
Lemma charging_sequence_from_events (cs : csms) (ids : list Z) (st : state) :
  List.filter is_Authorize (trace (charging_sequence_from cs ids st)) = []
  /\ List.filter is_StartTransaction (trace (charging_sequence_from cs ids st)) = [].
Proof.
  destruct (mock_meter_loop_any cs ids st)
    as ((m' & Hf & _) & _ & _ & Ha & Hst & _).
  unfold charging_sequence_from, bind, get, modify, when, ret,
    _send_transaction_end_sample, _send_stop_transaction, _send_status, emit.
  destruct (meter_loop cs ids st) as [[u st1] tr].
  unfold final, trace in *. cbn [fst snd] in *. subst st1.
  destruct st as [con s c tag t ch m ms hb mv ar], cs as [areply sreply mok sok].
  destruct ch, sok; cbn; rewrite ?List.filter_app, ?Ha, ?Hst; auto.
Qed.

(** X20: the gate before a charging sequence of EVBoxMock.  A request
    made while charging does nothing.  With [authorize_required] set, the
    tag is sent in [Authorize], and unless the answer is Accepted nothing
    else is sent and nothing changes; with it cleared, no [Authorize] is
    sent and the transaction is started under the tag "autostart"
    whatever tag was asked for. *)
Theorem mock_authorization_gate (cs : csms) (id_tag : string) (st : state) :
  let r := start_charging_sequence cs id_tag st in
  (charging st = true -> r = (tt, st, []))
  /\ (charging st = false -> authorize_required st = true ->
      authorize_reply cs <> Some AuthorizationStatus.accepted ->
      final r = st
      /\ List.filter is_Authorize (trace r) = [Call_Authorize id_tag]
      /\ List.filter is_StartTransaction (trace r) = [])
  /\ (charging st = false -> authorize_required st = true ->
      authorize_reply cs = Some AuthorizationStatus.accepted ->
      List.filter is_Authorize (trace r) = [Call_Authorize id_tag]
      /\ List.filter is_StartTransaction (trace r)
         = [Call_StartTransaction (connector_id st) id_tag (meter_wh_counter st)])
  /\ (charging st = false -> authorize_required st = false ->
      List.filter is_Authorize (trace r) = []
      /\ List.filter is_StartTransaction (trace r)
         = [Call_StartTransaction (connector_id st) "autostart"
              (meter_wh_counter st)]).
Proof.
  cbv zeta.
  assert (Hseq : forall tag' st',
    st' = st -> charging st = false ->
    List.filter is_Authorize (trace (charging_sequence_authorized cs tag' st')) = []
    /\ List.filter is_StartTransaction
         (trace (charging_sequence_authorized cs tag' st'))
       = [Call_StartTransaction (connector_id st) tag' (meter_wh_counter st)]).
  { intros tag' st' -> Hc.
    unfold charging_sequence_authorized, _send_status, _send_start_transaction,
      bind, get, modify, emit, ret.
    destruct st as [con s c tag t ch m ms hb mv ar]; simpl in Hc; subst.
    cbn [charging connected meter_wh_counter transaction_id
         set_meter_wh_counter status connector_id current_id_tag
         meter_start_wh heartbeat_interval meter_values_interval
         authorize_required set_charging set_status set_current_id_tag
         set_meter_start_wh set_transaction_id app].
    destruct (start_transaction_reply cs) as [tx|];
      unfold modify;
      cbn [set_transaction_id set_charging set_status];
      match goal with
      | |- context [charging_sequence_from cs ?l ?x] =>
          destruct (charging_sequence_from_events cs l x) as [Ha Hst];
          destruct (charging_sequence_from cs l x) as [[u st2] tr]
      end;
      unfold trace in *; cbn [fst snd] in *; cbn; rewrite Ha, Hst; auto. }
  split; [|split; [|split]].
  - intros Hc. destruct st; simpl in Hc; subst. reflexivity.
  - intros Hc Har Hrep. unfold start_charging_sequence, bind, get, emit, ret.
    rewrite Hc, Har. cbn [negb].
    destruct (authorize_reply cs) as [[]|]; try congruence;
      destruct st; repeat split.
  - intros Hc Har Hrep. unfold start_charging_sequence, bind, get, emit.
    rewrite Hc, Har, Hrep. cbn [negb].
    destruct (Hseq id_tag st eq_refl Hc) as [Ha Hst].
    destruct (charging_sequence_authorized cs id_tag st) as [[u st2] tr].
    unfold trace in *. cbn [fst snd] in *. cbn. rewrite Ha, Hst. auto.
  - intros Hc Har. unfold start_charging_sequence, bind, get.
    rewrite Hc, Har. cbn [negb].
    destruct (Hseq "autostart" st eq_refl Hc) as [Ha Hst].
    destruct (charging_sequence_authorized cs "autostart" st) as [[u st2] tr].
    unfold trace in *. cbn [fst snd] in *. cbn. rewrite Ha, Hst. auto.
Qed.

End MockSequence.

(** ** EVBoxMock: the configuration *)

Section MockConfig.

Import Mock.

Lemma mock_store_lookup_cases (st : state) (k : string) :
  store_lookup st k
  = if String.eqb k "AuthorizeRequired"
    then Some (if authorize_required st then "true" else "false")
    else if String.eqb k "MeterValuesSampleInterval"
    then Some (str_Z (meter_values_interval st))
    else if String.eqb k "HeartbeatInterval"
    then Some (str_Z (heartbeat_interval st))
    else if String.eqb k "evb_AutoStart"
    then Some (if authorize_required st then "0" else "1")
    else None.
Proof.
  unfold store_lookup, store. cbn [List.find fst snd].
  rewrite !(String.eqb_sym _ k).
  destruct (String.eqb k "AuthorizeRequired"); [reflexivity|].
  destruct (String.eqb k "MeterValuesSampleInterval"); [reflexivity|].
  destruct (String.eqb k "HeartbeatInterval"); [reflexivity|].
  destruct (String.eqb k "evb_AutoStart"); reflexivity.
Qed.

Lemma mock_store_lookup_known (st : state) (k : string) :
  bool_decide (is_Some (store_lookup st k)) = str_in k mock_known_keys.
Proof.
  rewrite mock_store_lookup_cases. unfold str_in, mock_known_keys.
  cbn [existsb].
  destruct (String.eqb k "AuthorizeRequired"); [reflexivity|].
  destruct (String.eqb k "MeterValuesSampleInterval"); [reflexivity|].
  destruct (String.eqb k "HeartbeatInterval"); [reflexivity|].
  destruct (String.eqb k "evb_AutoStart"); reflexivity.
Qed.

Lemma mock_get_requested (requested : list string) (st : state) :
  let conf := omap (fun k => (fun v => (k, v)) <$> store_lookup st k) requested in
  let unk := List.filter (fun k => negb (bool_decide (is_Some (store_lookup st k))))
               requested in
  map fst conf = List.filter (fun k => str_in k mock_known_keys) requested
  /\ unk = List.filter (fun k => negb (str_in k mock_known_keys)) requested
  /\ Forall (fun kv => store_lookup st (fst kv) = Some (snd kv)) conf.
Proof.
  cbv zeta. induction requested as [|k rest (IH1 & IH2 & IH3)];
    [repeat split; constructor|].
  cbn [List.filter]. rewrite <- !(mock_store_lookup_known st k).
  change (omap ?f (k :: rest))
    with (match f k with Some y => y :: omap f rest | None => omap f rest end).
  cbv beta. destruct (store_lookup st k) as [v|] eqn:Hk; rewrite ?Hk.
  - change (bool_decide (is_Some (Some v))) with true.
    cbn [negb fmap option_fmap option_map map fst]. rewrite IH1, IH2.
    repeat split. constructor; [exact Hk | exact IH3].
  - change (bool_decide (is_Some (@None string))) with false.
    cbn [negb fmap option_fmap option_map]. rewrite IH1, IH2.
    repeat split. exact IH3.
Qed.

(** X21: [GetConfiguration] of EVBoxMock splits the keys it is asked for,
    in their order, into those of its four keys, reported with the
    value of the configuration, and the others, reported as unknown.
    Asked for no key, or for an empty list of keys, it reports all four
    and no unknown key. *)
Theorem mock_get_configuration_lists (k : string) (ks : list string) (st : state) :
  let r := on_get_configuration (Some (k :: ks)) st in
  map fst (fst r) = List.filter (fun k => str_in k mock_known_keys) (k :: ks)
  /\ snd r = List.filter (fun k => negb (str_in k mock_known_keys)) (k :: ks)
  /\ Forall (fun kv => store_lookup st (fst kv) = Some (snd kv)) (fst r)
  /\ on_get_configuration None st = (store st, [])
  /\ on_get_configuration (Some []) st = (store st, []).
Proof.
  cbv zeta. unfold on_get_configuration. cbn [fst snd].
  destruct (mock_get_requested (k :: ks) st) as (H1 & H2 & H3).
  cbv zeta in H1, H2, H3.
  split; [exact H1|]. split; [exact H2|]. split; [exact H3|].
  destruct st; split; reflexivity.
Qed.

(** X22: what EVBoxMock reports after an accepted write of one of its
    intervals is the decimal form of the number it stored, for
    [MeterValuesSampleInterval] never less than 1, whatever spaces,
    sign, underscores or leading zeros the value written had; and
    writing the reported value back is accepted and changes nothing. *)
Theorem mock_get_after_change (value : string) (n : Z) (st : state) :
  py_int value = Some n ->
  let s1 := final (on_change_configuration "HeartbeatInterval" value st) in
  let s2 := final (on_change_configuration "MeterValuesSampleInterval" value st) in
  store_lookup s1 "HeartbeatInterval" = Some (str_Z n)
  /\ on_change_configuration "HeartbeatInterval" (str_Z n) s1
     = (ConfigurationStatus.accepted, s1, [])
  /\ store_lookup s2 "MeterValuesSampleInterval" = Some (str_Z (Z.max 1 n))
  /\ on_change_configuration "MeterValuesSampleInterval" (str_Z (Z.max 1 n)) s2
     = (ConfigurationStatus.accepted, s2, []).
Proof.
  intros Hn. cbv zeta.
  rewrite !mock_write_HeartbeatInterval, !mock_write_MeterValuesSampleInterval.
  rewrite Hn. unfold final. cbn [fst snd].
  rewrite ?mock_write_HeartbeatInterval, ?mock_write_MeterValuesSampleInterval.
  rewrite !py_int_str_Z.
  replace (Z.max 1 (Z.max 1 n)) with (Z.max 1 n) by lia.
  destruct st; repeat split.
Qed.

Lemma mock_get_after_change_witness :
  store_lookup
    (final (on_change_configuration "HeartbeatInterval" " +0_45 " init))
    "HeartbeatInterval"
  = Some (str_Z 45).
Proof.
  exact (proj1 (mock_get_after_change " +0_45 " 45 init eq_refl)).
Defined.

(** X23: a key that is none of the four of EVBoxMock is answered
    NotSupported by [ChangeConfiguration], which then changes nothing and
    tells the GUI nothing, and is reported as unknown by
    [GetConfiguration]. *)
Theorem mock_unknown_key (key value : string) (st : state) :
  ~ In key mock_known_keys ->
  on_change_configuration key value st
    = (ConfigurationStatus.not_supported, st, [])
  /\ on_get_configuration (Some [key]) st = ([], [key]).
Proof.
  intros Hk.
  assert (H1 : String.eqb key "AuthorizeRequired" = false)
    by (apply String.eqb_neq; intros ->; apply Hk; cbn; auto).
  assert (H2 : String.eqb key "MeterValuesSampleInterval" = false)
    by (apply String.eqb_neq; intros ->; apply Hk; cbn; auto).
  assert (H3 : String.eqb key "HeartbeatInterval" = false)
    by (apply String.eqb_neq; intros ->; apply Hk; cbn; auto).
  assert (H4 : String.eqb key "evb_AutoStart" = false)
    by (apply String.eqb_neq; intros ->; apply Hk; cbn; auto).
  split.
  - unfold on_change_configuration. rewrite H1, H4, H3, H2. reflexivity.
  - unfold on_get_configuration.
    change (omap ?f [key])
      with (match f key with Some y => [y] | None => [] end).
    cbn [List.filter]. rewrite mock_store_lookup_known.
    rewrite mock_store_lookup_cases, H1, H2, H3, H4.
    unfold str_in, mock_known_keys. cbn [existsb]. rewrite H1, H2, H3, H4.
    reflexivity.
Qed.

Lemma mock_unknown_key_witness :
  on_change_configuration "evb_SkipAuthorize" "1" init
  = (ConfigurationStatus.not_supported, init, []).
Proof.
  refine (proj1 (mock_unknown_key "evb_SkipAuthorize" "1" init _)).
  cbn. intros [H | [H | [H | [H | []]]]]; discriminate H.
Defined.

End MockConfig.

(** ** More on the strings *)

Section StringsMore.

Lemma str_Z_inj (a b : Z) : str_Z a = str_Z b -> a = b.
Proof.
  intros H. apply (f_equal Compact.dec_int) in H.
  rewrite !dec_int_str_Z in H. congruence.
Qed.

(** X24: on fields without comma the compact status string determines
    every field it is built from: two calls of the encoder that give the
    same string were given the same connector id, status, error code,
    error description, LED colour, plugged flag, energy register,
    transaction id and time stamp. *)
Theorem compact_encoding_is_injective
    (ts1 ts2 : string) (c1 c2 : Z) (s1 s2 ec1 ec2 ed1 ed2 led1 led2 : string)
    (p1 p2 wh1 wh2 tx1 tx2 : Z) :
  lacks "," s1 = true -> lacks "," ec1 = true -> lacks "," ed1 = true ->
  lacks "," led1 = true -> lacks "," ts1 = true ->
  lacks "," s2 = true -> lacks "," ec2 = true -> lacks "," ed2 = true ->
  lacks "," led2 = true -> lacks "," ts2 = true ->
  Compact.build_evb_status_compact ts1 c1 s1 ec1 ed1 led1 p1 wh1 tx1
  = Compact.build_evb_status_compact ts2 c2 s2 ec2 ed2 led2 p2 wh2 tx2 ->
  c1 = c2 /\ s1 = s2 /\ ec1 = ec2 /\ ed1 = ed2 /\ led1 = led2 /\ p1 = p2
  /\ wh1 = wh2 /\ tx1 = tx2 /\ ts1 = ts2.
Proof.
  intros A1 A2 A3 A4 A5 B1 B2 B3 B4 B5 H.
  apply (f_equal (split_on ",")) in H.
  rewrite !split_build in H by assumption.
  unfold Compact.tokens in H.
  injection H as Hc Hs Hec Hed _ Hled Hp Hwh Hts Htx.
  rewrite !or_Z_0 in Htx.
  repeat split; auto using str_Z_inj.
Qed.

Lemma compact_encoding_is_injective_witness :
  1 = 1 /\ "Charging" = "Charging" /\ "NoError" = "NoError"
  /\ "No error." = "No error." /\ "Blue" = "Blue" /\ 1 = 1
  /\ 11905680 = 11905680 /\ 77 = 77
  /\ "2026-01-01T00:00:00Z" = "2026-01-01T00:00:00Z".
Proof.
  exact (compact_encoding_is_injective
           "2026-01-01T00:00:00Z" "2026-01-01T00:00:00Z" 1 1
           "Charging" "Charging" "NoError" "NoError" "No error." "No error."
           "Blue" "Blue" 1 1 11905680 11905680 77 77
           eq_refl eq_refl eq_refl eq_refl eq_refl
           eq_refl eq_refl eq_refl eq_refl eq_refl eq_refl).
Defined.

Lemma lower_char_idempotent (c : ascii) : lower_char (lower_char c) = lower_char c.
Proof. destruct c as [[] [] [] [] [] [] [] []]; reflexivity. Qed.

Lemma is_space_lower_char (c : ascii) : is_space (lower_char c) = is_space c.
Proof. destruct c as [[] [] [] [] [] [] [] []]; reflexivity. Qed.

Lemma lower_idempotent (s : string) : lower (lower s) = lower s.
Proof.
  induction s as [|c s IH]; [reflexivity|].
  cbn [lower]. now rewrite lower_char_idempotent, IH.
Qed.

Lemma lstrip_lower (s : string) : lstrip (lower s) = lower (lstrip s).
Proof.
  induction s as [|c s IH]; [reflexivity|].
  cbn [lower lstrip]. rewrite is_space_lower_char.
  destruct (is_space c); [exact IH | reflexivity].
Qed.

Lemma rstrip_lower (s : string) : rstrip (lower s) = lower (rstrip s).
Proof.
  induction s as [|c s IH]; [reflexivity|].
  cbn [lower rstrip]. rewrite IH, is_space_lower_char.
  destruct (rstrip s); [destruct (is_space c)|]; reflexivity.
Qed.

Lemma strip_lower (s : string) : strip (lower s) = lower (strip s).
Proof. unfold strip. now rewrite rstrip_lower, lstrip_lower. Qed.

Lemma strip_leading_space (c : ascii) (s : string) :
  is_space c = true -> strip (String c s) = strip s.
Proof.
  intros Hc. unfold strip. cbn [rstrip].
  destruct (rstrip s); cbn [lstrip]; rewrite Hc; reflexivity.
Qed.

Lemma rstrip_trailing_space (c : ascii) (s : string) :
  is_space c = true -> rstrip (s ++ String c EmptyString) = rstrip s.
Proof.
  intros Hc. induction s as [|a s IH].
  - change (EmptyString ++ String c EmptyString) with (String c EmptyString).
    cbn [rstrip]. now rewrite Hc.
  - change (String a s ++ String c EmptyString)
      with (String a (s ++ String c EmptyString)).
    cbn [rstrip]. now rewrite IH.
Qed.

(** X25: the reading of a boolean value by [_as_bool] does not depend on
    the case of its letters, nor on white space before or after it. *)
Theorem as_bool_ignores_case_and_space (v : string) (c : ascii) :
  is_space c = true ->
  G3._as_bool (lower v) = G3._as_bool v
  /\ G3._as_bool (String c v) = G3._as_bool v
  /\ G3._as_bool (v ++ String c EmptyString) = G3._as_bool v.
Proof.
  intros Hc. unfold G3._as_bool. split; [|split].
  - now rewrite strip_lower, lower_idempotent.
  - now rewrite strip_leading_space.
  - unfold strip. now rewrite rstrip_trailing_space.
Qed.

Lemma as_bool_ignores_case_and_space_witness :
  G3._as_bool (String " " "Yes") = G3._as_bool "Yes".
Proof.
  exact (proj1 (proj2 (as_bool_ignores_case_and_space "Yes" " " eq_refl))).
Defined.

(** X26: a write and the next heartbeat.  On EVBoxG3Simulator no write,
    to any key and of any value, accepted or not, changes what the next
    cycle sleeps for.  On EVBoxMock a write of [HeartbeatInterval] that
    [int] reads as [n] makes the next cycle sleep for [n], whatever its
    sign, and a write that [int] cannot read leaves the sleep as it
    was. *)
Theorem heartbeat_sleep_after_write (key value : string) (ok : bool)
    (rest : list bool) (g : G3.state) (m : Mock.state) :
  G3.connected g = true -> Mock.connected m = true ->
  let sleep_mock :=
    first_sleep (trace (Mock.periodic_heartbeat (ok :: rest)
                          (final (Mock.on_change_configuration "HeartbeatInterval"
                                    value m)))) in
  first_sleep (trace (G3._heartbeat_task (ok :: rest)
                        (final (G3.on_change_configuration key value g))))
    = Some (G3.heartbeat_interval g)
  /\ (forall n, py_int value = Some n -> sleep_mock = Some n)
  /\ (py_int value = None -> sleep_mock = Some (Mock.heartbeat_interval m)).
Proof.
  intros Hg Hm. cbv zeta. split; [|split].
  - destruct (on_change_configuration_heartbeat_interval key value g) as [Hhb Hcon].
    rewrite _heartbeat_task_first_sleep by (rewrite Hcon; exact Hg).
    now rewrite Hhb.
  - intros n Hn.
    rewrite mock_write_HeartbeatInterval, Hn. unfold final. cbn [fst snd].
    rewrite periodic_heartbeat_first_sleep by (destruct m; exact Hm).
    destruct m; reflexivity.
  - intros Hn.
    rewrite mock_write_HeartbeatInterval, Hn. unfold final. cbn [fst snd].
    now rewrite periodic_heartbeat_first_sleep.
Qed.

Lemma heartbeat_sleep_after_write_witness :
  first_sleep (trace (Mock.periodic_heartbeat [true]
                        (final (Mock.on_change_configuration "HeartbeatInterval"
                                  "-5" Mock.init))))
  = Some (-5).
Proof.
  exact (proj1 (proj2 (heartbeat_sleep_after_write "HeartbeatInterval" "-5" true []
                         (G3.init "TAG") Mock.init eq_refl eq_refl))
           (-5) eq_refl).
Defined.

End StringsMore.

(** ** EVBoxG3Simulator: the rule of the remote stop *)

Section G3RemoteStop.

(** X27: EVBoxG3Simulator answers a [RemoteStopTransaction] with
    Accepted exactly when the call names the transaction id it holds.
    When a session is charging under that id, it then sends
    [StopTransaction] with the reason Remote and announces Available,
    and the session is over; a call that names another id is rejected,
    sends nothing and changes nothing. *)
Theorem g3_remote_stop_rule (cs : G3.csms) (transaction_id : Z) (st : G3.state) :
  let r := G3.on_remote_stop_transaction cs transaction_id st in
  (result r = RemoteStartStopStatus.Accepted <-> G3.tx_id st = Some transaction_id)
  /\ (G3.tx_id st = Some transaction_id -> G3.charging st = true ->
      trace r =
        [ Call_StopTransaction (Some transaction_id) (G3.gui_id_tag st)
            (G3.energy_wh_counter st) "Remote";
          Call_StatusNotification (G3.connector_id st)
            ChargePointStatus.available None;
          Call_DataTransfer_evbStatusNotification (G3.connector_id st)
            "Available" "Green" 0 (G3.energy_wh_counter st)
            (if G3.stop_transaction_ok cs then 0 else or_Z transaction_id 0);
          Gui_update_charging_status Disponivel ]
      /\ G3.charging (final r) = false)
  /\ (G3.tx_id st <> Some transaction_id ->
      r = (RemoteStartStopStatus.Rejected, st, [])).
Proof. exact (g3_remote_stop_transaction cs transaction_id st). Qed.

End G3RemoteStop.
